(** * agiAI: the RAG chatbot (server/chatbot.py) and its FastAPI backend
    (server/main.py).

    The two Python files are embedded file by file: [Chatbot] holds the
    console program (the crawler, the index build and the read-eval-print
    loop), [Main] the HTTP handlers.  What both files import lives in the
    modules before them: Python's string methods ([Py]), the exception and
    call-log monad ([Eff]) and the LangChain objects ([LangChain]). *)

From Stdlib Require Import ZArith String Ascii List Bool Lia.
From stdpp Require Import base option list gmap sets strings pretty.

Local Open Scope string_scope.
Local Open Scope list_scope.

(** ** Python strings

    A [str] is a Rocq [string]; one [ascii] stands for one code point, so
    the model covers the code points below 256.  [len] is [String.length]. *)
Module Py.

(** [str.isspace] on one code point: TAB..CR, FS..US, SPACE, NEL, NBSP. *)
Definition isspace (c : ascii) : bool :=
  let n := N_of_ascii c in
  ((9 <=? n) && (n <=? 13) || (28 <=? n) && (n <=? 32)
   || (n =? 133) || (n =? 160))%N.

Fixpoint lstrip (s : string) : string :=
  match s with
  | EmptyString => EmptyString
  | String c r => if isspace c then lstrip r else s
  end.

Fixpoint rstrip (s : string) : string :=
  match s with
  | EmptyString => EmptyString
  | String c r =>
      match rstrip r with
      | EmptyString => if isspace c then EmptyString else String c EmptyString
      | r' => String c r'
      end
  end.

(** [s.strip()] *)
Definition strip (s : string) : string := rstrip (lstrip s).

(** [sep.join(l)] *)
Definition join (sep : string) (l : list string) : string := String.concat sep l.

(** [str.lower] on one code point: A..Z and the Latin-1 capitals. *)
Definition lower_char (c : ascii) : ascii :=
  let n := N_of_ascii c in
  if ((65 <=? n) && (n <=? 90)
      || (192 <=? n) && (n <=? 222) && negb (n =? 215))%N
  then ascii_of_N (n + 32) else c.

Fixpoint lower (s : string) : string :=
  match s with
  | EmptyString => EmptyString
  | String c r => String (lower_char c) (lower r)
  end.

(** The line feed, [\n]. *)
Definition nl : string := String (ascii_of_N 10) EmptyString.

(** Truth value of a [str]: the empty string is falsy. *)
Definition truthy (s : string) : bool :=
  match s with EmptyString => false | _ => true end.

(** [x in l] for a list of strings. *)
Definition str_in (x : string) (l : list string) : bool :=
  existsb (String.eqb x) l.

(** [l[-n:]] for [n > 0]: the last [n] elements, all of [l] if it is shorter. *)
Definition last_n {A} (n : nat) (l : list A) : list A :=
  skipn (length l - n) l.

(** The first and the last code point are not white space. *)
Definition head_ok (s : string) : bool :=
  match s with EmptyString => true | String c _ => negb (isspace c) end.

Fixpoint last_ok (s : string) : bool :=
  match s with
  | EmptyString => true
  | String c EmptyString => negb (isspace c)
  | String _ r => last_ok r
  end.

(** The string is empty or holds white space only. *)
Fixpoint blank (s : string) : bool :=
  match s with
  | EmptyString => true
  | String c r => isspace c && blank r
  end.

(** A piece as [get_text] joins them: not empty, no white space at its ends. *)
Definition piece (s : string) : Prop :=
  truthy s = true /\ head_ok s = true /\ last_ok s = true.

End Py.

(** ** langchain.schema: chat messages and retrieved documents *)
Module Schema.

Inductive message : Type :=
  | SystemMessage (content : string)
  | HumanMessage (content : string)
  | AIMessage (content : string).

(** A retrieved [Document]: its text and its metadata dictionary. *)
Record Document : Type := mkDocument {
  page_content : string;
  metadata : gmap string string
}.

End Schema.

(** ** Effects: exceptions, mutable state and the log of oracle calls *)
Module Eff.
Import Schema.

(** The exceptions the two files raise or catch.  All of them derive from
    Python's [Exception], so an [except Exception] clause catches each. *)
Inductive exn : Type :=
  | HTTPException (status_code : Z) (detail : list fragment)
  | Exception (msg : string)
  | EOFError
(** A formatted string keeps its pieces: literal text and [str(e)]. *)
with fragment : Type :=
  | Lit (s : string)
  | StrOf (e : exn).

(** Calls that leave the process, in program order. *)
Inductive event : Type :=
  | SimilaritySearch (query : string) (k : nat)
  | Invoke (messages : list message)
  | Print (line : list fragment).

Section Monad.
Context {S : Type}.

(** A computation reads a state, logs its calls, leaves a state behind and
    either raises or returns.  A raised exception keeps the state written
    so far, as an in-place update in Python survives a later [raise]. *)
Definition eff (A : Type) : Type := S -> list event * S * (exn + A).

Definition ret {A} (a : A) : eff A := fun s => ([], s, inr a).

Definition bind {A B} (m : eff A) (f : A -> eff B) : eff B :=
  fun s =>
    match m s with
    | (l, s', inl e) => (l, s', inl e)
    | (l, s', inr a) =>
        let '(l', s'', r) := f a s' in (l ++ l', s'', r)
    end.

Definition raise {A} (e : exn) : eff A := fun s => ([], s, inl e).

Definition emit (ev : event) : eff unit := fun s => ([ev], s, inr tt).

Definition get : eff S := fun s => ([], s, inr s).

Definition modify (f : S -> S) : eff unit := fun s => ([], f s, inr tt).

(** An oracle's answer: its exception is raised, its value returned. *)
Definition lift {A} (r : exn + A) : eff A := fun s => ([], s, r).

(** [try: body except Exception as e: handler e] *)
Definition try_except {A} (body : eff A) (handler : exn -> eff A) : eff A :=
  fun s =>
    match body s with
    | (l, s', inl e) =>
        let '(l', s'', r) := handler e s' in (l ++ l', s'', r)
    | ok => ok
    end.

Definition log_of {A} (r : list event * S * (exn + A)) : list event := r.1.1.
Definition state_of {A} (r : list event * S * (exn + A)) : S := r.1.2.
Definition outcome_of {A} (r : list event * S * (exn + A)) : exn + A := r.2.
End Monad.

Arguments eff : clear implicits.

Module Notations.
Notation "'do' x <- m ; k" := (bind m (fun x => k))
  (at level 10, x name, m at level 100, k at level 200).
Notation "'do' ' pat <- m ; k" :=
  (bind m (fun x => match x with pat => k end))
  (at level 10, pat pattern, m at level 100, k at level 200).
Notation "'run' m ; k" := (bind m (fun _ => k))
  (at level 10, m at level 100, k at level 200).
End Notations.

(** The message lists handed to the language model, oldest call first. *)
Fixpoint invocations (log : list event) : list (list message) :=
  match log with
  | [] => []
  | Invoke messages :: rest => messages :: invocations rest
  | _ :: rest => invocations rest
  end.

(** The event is a retrieval or a language-model call. *)
Definition is_oracle_call (ev : event) : bool :=
  match ev with
  | SimilaritySearch _ _ | Invoke _ => true
  | Print _ => false
  end.

End Eff.

(** ** The library objects the programs hold *)
Module LangChain.
Import Schema Eff Eff.Notations.

(** [ChatGroq]: the client is its [invoke] method, an oracle that answers
    with the reply's content or raises. *)
Record ChatGroq : Type := mkChatGroq {
  llm_oracle : list message -> exn + string
}.

Definition invoke {S} (llm : ChatGroq) (messages : list message) : eff S string :=
  run emit (Invoke messages); lift (llm_oracle llm messages).

Section VectorStore.
Context {Vec : Type}.

(** [HuggingFaceEmbeddings]: text to vector, or an exception. *)
Record Embeddings : Type := mkEmbeddings {
  embed_query : string -> exn + Vec
}.

(** The FAISS store: the embedding object it was built with, the order on
    distances to a query ([nearer q a b]: [a] is at most as far from [q] as
    [b]) and the stored vectors with their documents. *)
Record FAISS : Type := mkFAISS {
  embedding_function : Embeddings;
  nearer : Vec -> Vec -> Vec -> bool;
  records : list (Vec * Document)
}.

Fixpoint insert_by (le : Vec -> Vec -> bool) (x : Vec * Document)
    (l : list (Vec * Document)) : list (Vec * Document) :=
  match l with
  | [] => [x]
  | y :: r => if le y.1 x.1 then y :: insert_by le x r else x :: y :: r
  end.

Definition sort_by (le : Vec -> Vec -> bool) (l : list (Vec * Document))
    : list (Vec * Document) :=
  foldr (insert_by le) [] l.

(** [vectorstore.similarity_search(query, k=k)]: embed the query, return
    the documents of the [k] nearest stored vectors, nearest first. *)
Definition similarity_search {S} (vs : FAISS) (query : string) (k : nat)
    : eff S (list Document) :=
  run emit (SimilaritySearch query k);
  do v <- lift (embed_query (embedding_function vs) query);
  ret (map snd (take k (sort_by (nearer vs v) (records vs)))).
End VectorStore.

Arguments Embeddings : clear implicits.
Arguments FAISS : clear implicits.

End LangChain.

(** ** server/chatbot.py *)
Module Chatbot.
Import Py Schema Eff Eff.Notations LangChain.

Definition WEBSITE_URL : string := "https://agiteks.com".
Definition MAX_PAGES_TO_SCRAPE : Z := 20.

(** What [scrape_page] holds once the page is parsed and the script, style,
    nav, footer and header elements are decomposed: the text nodes in document
    order and the [href] of every remaining anchor. *)
Record Soup : Type := mkSoup {
  strings : list string;
  hrefs : list string
}.

(** [soup.get_text(separator=sep, strip=True)]: every text node is stripped,
    the empty ones are dropped, the rest is joined. *)
Definition get_text (sep : string) (soup : Soup) : string :=
  join sep (List.filter truthy (map strip (strings soup))).

(** One entry of [documents]: [{'content': text, 'source': url}]. *)
Record Page : Type := mkPage {
  content : string;
  source : string
}.

Section WebsiteScraper.
(** The network and [urllib.parse]: [requests_get url] is the parsed page,
    or [None] when anything inside the [try] of [scrape_page] raises. *)
Context (requests_get : string -> option Soup)
        (urljoin : string -> string -> string)
        (netloc : string -> string).

Record WebsiteScraper : Type := mkScraper {
  base_url : string;
  max_pages : Z;
  visited_urls : gset string;
  domain : string
}.

(** [__init__] *)
Definition init (base_url : string) (max_pages : Z) : WebsiteScraper :=
  {| base_url := base_url; max_pages := max_pages;
     visited_urls := ∅; domain := netloc base_url |}.

Definition is_valid_url (self : WebsiteScraper) (url : string) : bool :=
  String.eqb (netloc url) (domain self).

Definition scrape_page (self : WebsiteScraper) (url : string)
    : option string * list string :=
  match requests_get url with
  | Some soup =>
      let text := get_text " " soup in
      let links :=
        List.filter
          (fun absolute_url =>
             is_valid_url self absolute_url
             && bool_decide (absolute_url ∉ visited_urls self))
          (map (urljoin url) (hrefs soup)) in
      (Some text, links)
  | None => (None, [])
  end.

(** The locals of [scrape_website] next to the scraper object; [fetched]
    records the calls of [scrape_page], oldest first. *)
Record Crawl : Type := mkCrawl {
  self : WebsiteScraper;
  to_visit : list string;
  documents : list Page;
  fetched : list string
}.

Definition start (scraper : WebsiteScraper) : Crawl :=
  {| self := scraper; to_visit := [base_url scraper];
     documents := []; fetched := [] |}.

(** [text and len(text.strip()) > 100] *)
Definition long_enough (text : option string) : bool :=
  match text with
  | Some t => truthy t && (100 <? String.length (strip t))%nat
  | None => false
  end.

(** One test of the [while] condition and, when it holds, one run of the
    loop body; [None] when the loop is left. *)
Definition step (c : Crawl) : option Crawl :=
  match to_visit c with
  | [] => None
  | url :: rest =>
      if (Z.of_nat (size (visited_urls (self c))) <? max_pages (self c))%Z then
        if decide (url ∈ visited_urls (self c)) then
          Some {| self := self c; to_visit := rest;
                  documents := documents c; fetched := fetched c |}
        else
          let self' :=
            {| base_url := base_url (self c); max_pages := max_pages (self c);
               visited_urls := {[url]} ∪ visited_urls (self c);
               domain := domain (self c) |} in
          let '(text, links) := scrape_page self' url in
          let documents' :=
            if long_enough text
            then documents c ++
                 [{| content := default EmptyString text; source := url |}]
            else documents c in
          Some {| self := self';
                  to_visit :=
                    rest ++ List.filter
                              (fun link => bool_decide (link ∉ visited_urls self'))
                              links;
                  documents := documents';
                  fetched := fetched c ++ [url] |}
      else None
  end.

(** The crawl after at most [n] iterations. *)
Fixpoint steps (n : nat) (c : Crawl) : Crawl :=
  match n with
  | O => c
  | S n' => match step c with Some c' => steps n' c' | None => c end
  end.

(** [scrape_website]: the documents when the loop is left within [fuel]
    iterations. *)
Fixpoint scrape_website_from (fuel : nat) (c : Crawl) : option (list Page) :=
  match step c with
  | None => Some (documents c)
  | Some c' =>
      match fuel with
      | O => None
      | S fuel' => scrape_website_from fuel' c'
      end
  end.

Definition scrape_website (fuel : nat) (scraper : WebsiteScraper)
    : option (list Page) :=
  scrape_website_from fuel (start scraper).

(** The text [scrape_page] extracts from [url], if the fetch succeeds. *)
Definition extracted_text (url : string) : option string :=
  get_text " " <$> requests_get url.
End WebsiteScraper.

Section RAGSystem.
Context {Vec : Type}.

Record RAGSystem : Type := mkRAG {
  embeddings : Embeddings Vec;
  vectorstore : option (FAISS Vec)
}.

(** [f"[Source {i}: {source}]\n{doc.page_content}"] for
    [enumerate(docs, i)]. *)
Fixpoint context_parts (i : nat) (docs : list Document) : list string :=
  match docs with
  | [] => []
  | doc :: rest =>
      let source := default "Unknown" (metadata doc !! "source") in
      ("[Source " +:+ pretty i +:+ ": " +:+ source +:+ "]" +:+ nl
         +:+ page_content doc)
      :: context_parts (S i) rest
  end.

(** The loop of [process_and_store_documents] that fills [texts] and
    [metadatas].  [split_text] is the method of the
    [RecursiveCharacterTextSplitter(chunk_size=1000, chunk_overlap=200,
    length_function=len)] the function builds; the splitter is library code
    and enters as a parameter. *)
Fixpoint chunk_documents (split_text : string -> list string)
    (documents : list Page) : list string * list (gmap string string) :=
  match documents with
  | [] => ([], [])
  | doc :: rest =>
      let chunks := split_text (content doc) in
      let later := chunk_documents split_text rest in
      (chunks ++ later.1,
       map (fun _ => {[ "source" := source doc ]}) chunks ++ later.2)
  end.

Definition retrieve_context {S} (self : RAGSystem) (query : string) (k : nat)
    : eff S string :=
  match vectorstore self with
  | None => ret EmptyString
  | Some vs =>
      do docs <- similarity_search vs query k;
      ret (join (nl +:+ nl) (context_parts 1 docs))
  end.

Definition system_prompt (context : string) : string :=
  "You are a helpful AI assistant for Agiteks. " +:+ nl +:+
  "Use the following context from the Agiteks website to answer the user's question." +:+ nl +:+
  "If the answer is not in the context, say so and provide a general helpful response." +:+ nl +:+
  nl +:+
  "Context from Agiteks website:" +:+ nl +:+
  context +:+ nl +:+
  nl +:+
  "Be concise, friendly, and accurate.".

(** The messages handed to the model for one turn. *)
Definition build_messages (context : string) (conversation_history : list message)
    (user_input : string) : list message :=
  [SystemMessage (system_prompt context)]
  ++ last_n 6 conversation_history
  ++ [HumanMessage user_input].

(** The [try] block of the loop body.  The state is
    [conversation_history]. *)
Definition answer (llm : ChatGroq) (rag : RAGSystem) (user_input : string)
    : eff (list message) unit :=
  do context <- retrieve_context rag user_input 3;
  do conversation_history <- get;
  let messages := build_messages context conversation_history user_input in
  do response <- invoke llm messages;
  run modify (fun h => h ++ [HumanMessage user_input]);
  run modify (fun h => h ++ [AIMessage response]);
  emit (Print [Lit ("Chatbot: " +:+ response +:+ nl)]).

(** One pass of [while True:] on the line [input] returns; [true] when the
    loop goes on to the next prompt, [false] on [break]. *)
Definition turn (llm : ChatGroq) (rag : RAGSystem) (line : string)
    : eff (list message) bool :=
  let user_input := strip line in
  if str_in (lower user_input) ["quit"; "exit"; "bye"] then
    run emit (Print [Lit "Chatbot: Goodbye! Have a great day!"]);
    ret false
  else if negb (truthy user_input) then
    ret true
  else
    run try_except (answer llm rag user_input)
          (fun e => emit (Print [Lit "Error: "; StrOf e; Lit nl]));
    ret true.

(** The chat loop over the lines typed on standard input; [input] raises
    [EOFError] when they run out. *)
Fixpoint chat_loop (llm : ChatGroq) (rag : RAGSystem) (stdin : list string)
    : eff (list message) unit :=
  match stdin with
  | [] => raise EOFError
  | line :: rest =>
      do continue <- turn llm rag line;
      if continue then chat_loop llm rag rest else ret tt
  end.
End RAGSystem.

Arguments RAGSystem : clear implicits.

End Chatbot.

(** ** server/main.py *)
Module Main.
Import Py Schema Eff Eff.Notations LangChain.

(** The pydantic models.  [role] is any string; the source comments it as
    ['user' or 'bot']. *)
Record Message : Type := mkMessage {
  msg_content : string;
  msg_role : string
}.

Record ChatRequest : Type := mkChatRequest {
  req_content : string;
  req_role : string;
  conversation_history : option (list Message)
}.

Record ChatResponse : Type := mkChatResponse {
  resp_content : string;
  resp_role : string;
  sources : option (list string)
}.

Section Handlers.
Context {Vec : Type}.

Record RAGSystem : Type := mkRAG {
  embeddings : Embeddings Vec;
  vectorstore : option (FAISS Vec)
}.

(** The module-level variables. *)
Record globals : Type := mkGlobals {
  rag_system : option RAGSystem;
  llm : option ChatGroq;
  conversation_histories : gmap string (list Message)
}.

(** The loop of [retrieve_context] over [enumerate(docs, i)]: the context
    parts and the sources, in rank order. *)
Fixpoint context_parts (i : nat) (docs : list Document)
    : list string * list string :=
  match docs with
  | [] => ([], [])
  | doc :: rest =>
      let source := default "Unknown" (metadata doc !! "source") in
      let '(parts, srcs) := context_parts (S i) rest in
      (("[Source " +:+ pretty i +:+ ": " +:+ source +:+ "]" +:+ nl
          +:+ page_content doc) :: parts,
       source :: srcs)
  end.

Definition retrieve_context {S} (self : RAGSystem) (query : string) (k : nat)
    : eff S (string * list string) :=
  match vectorstore self with
  | None => ret (EmptyString, [])
  | Some vs =>
      do docs <- similarity_search vs query k;
      let collected := context_parts 1 docs in
      ret (join (nl +:+ nl) collected.1, collected.2)
  end.

Definition system_prompt (context : string) : string :=
  "You are AgiAI, a helpful and friendly AI assistant for Agiteks. " +:+ nl +:+
  "Use the following context from the Agiteks website to answer the user's question accurately." +:+ nl +:+
  "If the answer is not in the context, say so politely and provide a general helpful response." +:+ nl +:+
  nl +:+
  "Context from Agiteks website:" +:+ nl +:+
  context +:+ nl +:+
  nl +:+
  "Be concise, friendly, professional, and accurate in your responses.".

(** The [if]/[elif] on one history entry: a role other than ["user"] and
    ["bot"] appends nothing. *)
Definition history_message (msg : Message) : list message :=
  if String.eqb (msg_role msg) "user" then [HumanMessage (msg_content msg)]
  else if String.eqb (msg_role msg) "bot" then [AIMessage (msg_content msg)]
  else [].

(** What [request.conversation_history] adds to [messages]. *)
Definition history_messages (history : option (list Message)) : list message :=
  match history with
  | None | Some [] => []
  | Some h => flat_map history_message (last_n 6 h)
  end.

Definition build_messages (context : string) (request : ChatRequest)
    (user_message : string) : list message :=
  [SystemMessage (system_prompt context)]
  ++ history_messages (conversation_history request)
  ++ [HumanMessage user_message].

Definition rag_not_initialized : exn :=
  HTTPException 503
    [Lit "RAG system not initialized. Please ensure FAISS index exists."].

Definition llm_not_initialized : exn :=
  HTTPException 503 [Lit "LLM not initialized. Please check GROQ_API_KEY."].

Definition empty_content : exn :=
  HTTPException 400 [Lit "Message content cannot be empty"].

(** The [try] block of [get_message]. *)
Definition process (rag : RAGSystem) (client : ChatGroq) (request : ChatRequest)
    : eff globals ChatResponse :=
  let user_message := strip (req_content request) in
  if negb (truthy user_message) then raise empty_content
  else
    do '(context, srcs) <- retrieve_context rag user_message 3;
    let messages := build_messages context request user_message in
    do response <- invoke client messages;
    ret {| resp_content := response; resp_role := "bot";
           sources := match srcs with [] => None | _ => Some srcs end |}.

(** [POST /getMsg].  A raised [HTTPException] is the response's status and
    detail. *)
Definition get_message (request : ChatRequest) : eff globals ChatResponse :=
  do g <- get;
  match rag_system g with
  | None => raise rag_not_initialized
  | Some rag =>
      match vectorstore rag with
      | None => raise rag_not_initialized
      | Some _ =>
          match llm g with
          | None => raise llm_not_initialized
          | Some client =>
              try_except (process rag client request)
                (fun e =>
                   run emit (Print [Lit "Error processing message: "; StrOf e]);
                   raise (HTTPException 500
                            [Lit "Error processing your message: "; StrOf e]))
          end
      end
  end.

(** [POST /reset] *)
Definition reset_conversation : eff globals unit :=
  modify (fun g => {| rag_system := rag_system g; llm := llm g;
                      conversation_histories := ∅ |}).

(** The HTTP status of a handler's outcome: 200 for a returned body, the
    code of a raised [HTTPException], 500 for any other exception. *)
Definition status_of {A} (r : exn + A) : Z :=
  match r with
  | inr _ => 200
  | inl (HTTPException code _) => code
  | inl _ => 500
  end.
End Handlers.

Arguments RAGSystem : clear implicits.
Arguments globals : clear implicits.

End Main.

(** ** What the crawl maintains *)
Module CrawlSpec.
Import Py Chatbot.

Section Invariants.
Context (requests_get : string -> option Soup)
        (netloc : string -> string).

(** The scraper object with [url] added to its visited set. *)
Definition visit (s : WebsiteScraper) (url : string) : WebsiteScraper :=
  {| base_url := base_url s; max_pages := max_pages s;
     visited_urls := {[url]} ∪ visited_urls s; domain := domain s |}.

(** The visited set respects the page cap. *)
Definition capped (c : Crawl) : Prop :=
  (Z.of_nat (size (visited_urls (self c))) <= max_pages (self c))%Z.

Definition same_domain (c : Crawl) : Prop :=
  domain (self c) = netloc (base_url (self c))
  /\ (forall u, u ∈ visited_urls (self c) -> netloc u = domain (self c))
  /\ (forall u, u ∈ to_visit c -> netloc u = domain (self c)).

(** Every fetched URL is in the visited set and was fetched once. *)
Definition fetched_once (c : Crawl) : Prop :=
  NoDup (fetched c) /\ (forall u, u ∈ fetched c -> u ∈ visited_urls (self c)).

Definition emitted (c : Crawl) (url : string) : Prop :=
  exists d, d ∈ documents c /\ source d = url.

Definition has_long_text (url : string) : Prop :=
  exists text, extracted_text requests_get url = Some text /\ (100 < String.length text)%nat.

Definition documents_ok (c : Crawl) : Prop :=
  (forall u, u ∈ fetched c -> u ∈ visited_urls (self c))
  /\ (forall d, d ∈ documents c -> source d ∈ fetched c)
  /\ (forall u, u ∈ fetched c -> emitted c u <-> has_long_text u).
End Invariants.

End CrawlSpec.

(** ** A two-page site to run the crawler on *)
Module ExampleSite.
Import Py Chatbot.

Definition seed : string := "https://example.com".

Definition home_text : string :=
  "Agiteks builds software for logistics companies: routing, warehouse management, fleet tracking and reporting dashboards.".

Definition requests_get (url : string) : option Soup :=
  if String.eqb url "https://example.com" then
    Some {| strings := ["  Welcome  "; "   "; home_text];
            hrefs := ["/services"; "https://other.org/about"; "/services"] |}
  else if String.eqb url "https://example.com/services" then
    Some {| strings := [" consulting "]; hrefs := ["/contact"] |}
  else None.

Definition urljoin (base href : string) : string :=
  if String.prefix "http" href then href else seed +:+ href.

Definition netloc (url : string) : string :=
  if String.prefix "https://example.com" url then "example.com" else "other.org".

(** The crawl of the site with page cap [max_pages] after [n] iterations. *)
Definition crawl (max_pages : Z) (n : nat) : Crawl :=
  steps requests_get urljoin netloc n (start (init netloc seed max_pages)).

End ExampleSite.

(** ** The shape of a composed prompt *)
Module PromptSpec.
Import Py Schema.

(** The words that end the console session. *)
Definition quit_words : list string := ["quit"; "exit"; "bye"].



End PromptSpec.

(** ** A server and a console session to run the handlers on *)
Module ExampleServer.
Import Py Schema Eff LangChain.

(** One-dimensional embeddings: a text is embedded as its length. *)
Definition embed : Embeddings Z :=
  {| embed_query := fun text => inr (Z.of_nat (String.length text)) |}.

Definition closer (q a b : Z) : bool := (Z.abs (a - q) <=? Z.abs (b - q))%Z.

Definition chunk (text url : string) : Z * Document :=
  (Z.of_nat (String.length text),
   {| page_content := text; metadata := {[ "source" := url ]} |}).

Definition store : FAISS Z :=
  {| embedding_function := embed; nearer := closer;
     records := [chunk "We offer consulting." "https://example.com/services";
                 chunk "Contact us by mail." "https://example.com/contact"] |}.

Definition empty_store : FAISS Z :=
  {| embedding_function := embed; nearer := closer; records := [] |}.

(** A model that answers and a model whose call fails. *)
Definition groq : ChatGroq :=
  {| llm_oracle := fun _ => inr "We offer consulting." |}.

Definition groq_down : ChatGroq :=
  {| llm_oracle := fun _ => inl (Exception "rate limit exceeded") |}.

Definition rag : Main.RAGSystem Z :=
  {| Main.embeddings := embed; Main.vectorstore := Some store |}.

Definition ready : Main.globals Z :=
  {| Main.rag_system := Some rag; Main.llm := Some groq;
     Main.conversation_histories := ∅ |}.

Definition console_rag : Chatbot.RAGSystem Z :=
  {| Chatbot.embeddings := embed; Chatbot.vectorstore := Some store |}.

Definition blank_request : Main.ChatRequest :=
  {| Main.req_content := "   "; Main.req_role := "user";
     Main.conversation_history := None |}.

Definition user_says (text : string) : Main.Message :=
  {| Main.msg_content := text; Main.msg_role := "user" |}.

Definition bot_says (text : string) : Main.Message :=
  {| Main.msg_content := text; Main.msg_role := "bot" |}.


(** Ten prior turns whose replies carry the role the frontend uses. *)
Definition ten_turns : list Main.Message :=
  [user_says "q1"; bot_says "a1"; user_says "q2"; bot_says "a2";
   user_says "q3"; bot_says "a3"; user_says "q4"; bot_says "a4";
   user_says "q5"; bot_says "a5"].


Definition ask (history : list Main.Message) : Main.ChatRequest :=
  {| Main.req_content := " What do you offer? "; Main.req_role := "user";
     Main.conversation_history := Some history |}.

(** What retrieval returns for a query on the example store. *)
Definition retrieved (query : string) : string * list string :=
  match outcome_of (Main.retrieve_context rag query 3 tt) with
  | inr found => found
  | inl _ => (EmptyString, [])
  end.

Definition console_retrieved (query : string) : string :=
  match outcome_of (Chatbot.retrieve_context console_rag query 3 tt) with
  | inr found => found
  | inl _ => EmptyString
  end.

(** The console history after five exchanges. *)
Definition console_history : list message :=
  [HumanMessage "q1"; AIMessage "a1"; HumanMessage "q2"; AIMessage "a2";
   HumanMessage "q3"; AIMessage "a3"; HumanMessage "q4"; AIMessage "a4";
   HumanMessage "q5"; AIMessage "a5"].

End ExampleServer.

(** ** What a crawl returns *)
Module CrawlResult.
Import Py Chatbot.

Section Result.
Context (requests_get : string -> option Soup)
        (urljoin : string -> string -> string).

(** The entry of [documents] a fetched page gives, if its text is long
    enough. *)
Definition page_of (url : string) : option Page :=
  match extracted_text requests_get url with
  | Some text =>
      if (100 <? String.length text)%nat
      then Some {| content := text; source := url |}
      else None
  | None => None
  end.

(** The absolute targets of the anchors on the page at [url]. *)
Definition links_on (url : string) : list string :=
  match requests_get url with
  | Some soup => map (urljoin url) (hrefs soup)
  | None => []
  end.

(** [url] is the seed or the target of an anchor on one of [pages]. *)
Definition seed_or_linked (seed : string) (pages : list string) (url : string)
    : Prop :=
  url = seed \/ exists page, page ∈ pages /\ url ∈ links_on page.
(** What the crawl keeps about where its URLs come from. *)
Definition traced (base : string) (c : Crawl) : Prop :=
  (forall u, u ∈ to_visit c ->
     seed_or_linked base (fetched c) u)
  /\ (forall i u, fetched c !! i = Some u ->
        seed_or_linked base (take i (fetched c)) u).

End Result.

(** The texts and the metadata [process_and_store_documents] hands to
    [FAISS.from_texts], document by document. *)
Definition texts_of (split_text : string -> list string) (docs : list Page)
    : list string :=
  flat_map (fun doc => split_text (content doc)) docs.

Definition metadatas_of (split_text : string -> list string) (docs : list Page)
    : list (gmap string string) :=
  flat_map
    (fun doc =>
       replicate (length (split_text (content doc)))
                 ({[ "source" := source doc ]} : gmap string string))
    docs.

End CrawlResult.

(** ** server/main.py: start-up and the status endpoints *)
Module MainLifecycle.
Import Py Schema Eff LangChain Main.

Definition FAISS_INDEX_PATH : string := "faiss_index".

(** What [startup_event] can raise: its own [RuntimeError], the
    [FileNotFoundError] of [load_existing_vectorstore] or of a library call,
    or anything else a library call raises. *)
Inductive startup_error : Type :=
  | RuntimeError (msg : string)
  | FileNotFoundError (msg : string)
  | LibraryError (e : exn).

Section Startup.
Context {Vec : Type}.

(** The process environment, the disk and the constructors of the library
    objects, as start-up meets them.  [new_llm] is the call [ChatGroq(...)]
    and [new_embeddings] the call [HuggingFaceEmbeddings(...)], which loads
    the embedding model; either returns its object or raises. *)
Record Environment : Type := mkEnvironment {
  GROQ_API_KEY : option string;
  index_exists : bool;
  load_local : Embeddings Vec -> startup_error + FAISS Vec;
  new_embeddings : startup_error + Embeddings Vec;
  new_llm : startup_error + ChatGroq
}.

(** [RAGSystem.__init__]: the object, or the exception of the embeddings
    constructor. *)
Definition new_rag (env : Environment) : startup_error + RAGSystem Vec :=
  match new_embeddings env with
  | inl e => inl e
  | inr emb => inr {| embeddings := emb; vectorstore := None |}
  end.

(** [RAGSystem.load_existing_vectorstore]: the object after the call and the
    exception, if one is raised. *)
Definition load_existing_vectorstore (env : Environment) (self : RAGSystem Vec)
    : RAGSystem Vec * option startup_error :=
  if negb (index_exists env) then
    (self, Some (FileNotFoundError ("FAISS index not found at " +:+ FAISS_INDEX_PATH)))
  else
    match load_local env (embeddings self) with
    | inl e => (self, Some e)
    | inr vs =>
        ({| embeddings := embeddings self; vectorstore := Some vs |}, None)
    end.

(** [os.getenv(name)] as a condition: unset and empty are both falsy. *)
Definition env_truthy (value : option string) : bool :=
  match value with
  | Some v => truthy v
  | None => false
  end.

(** [startup_event]: the module-level variables after the call and the
    exception that leaves it, if any.  The two constructors run outside any
    [try]: what they raise leaves the function, with the variables assigned
    so far.  Of what loading raises only [FileNotFoundError] is caught. *)
Definition startup_event (env : Environment) (g : globals Vec)
    : globals Vec * option startup_error :=
  if negb (env_truthy (GROQ_API_KEY env)) then
    (g, Some (RuntimeError "GROQ_API_KEY not found in environment variables!"))
  else
    match new_llm env with
    | inl e => (g, Some e)
    | inr client =>
        match new_rag env with
        | inl e =>
            ({| rag_system := rag_system g; llm := Some client;
                conversation_histories := conversation_histories g |},
             Some e)
        | inr rag0 =>
            let '(rag, raised) := load_existing_vectorstore env rag0 in
            let g' := {| rag_system := Some rag; llm := Some client;
                         conversation_histories := conversation_histories g |} in
            match raised with
            | None | Some (FileNotFoundError _) => (g', None)
            | Some e => (g', Some e)
            end
        end
    end.

(** The module-level variables when the module is imported. *)
Definition initial_globals : globals Vec :=
  {| rag_system := None; llm := None; conversation_histories := ∅ |}.

(** [GET /] *)
Record RootResponse : Type := mkRoot {
  root_status : string;
  root_message : string;
  rag_loaded : bool
}.

Definition root (g : globals Vec) : RootResponse :=
  {| root_status := "online";
     root_message := "AgiAI RAG Chatbot API is running";
     rag_loaded :=
       match rag_system g with
       | Some rag => bool_decide (is_Some (vectorstore rag))
       | None => false
       end |}.

(** [GET /health] *)
Record HealthResponse : Type := mkHealth {
  health_status : string;
  rag_initialized : bool;
  vectorstore_loaded : bool;
  llm_initialized : bool
}.

Definition health_check (g : globals Vec) : HealthResponse :=
  {| health_status := "healthy";
     rag_initialized := bool_decide (is_Some (rag_system g));
     vectorstore_loaded :=
       match rag_system g with
       | Some rag => bool_decide (is_Some (vectorstore rag))
       | None => false
       end;
     llm_initialized := bool_decide (is_Some (llm g)) |}.
End Startup.

Arguments Environment : clear implicits.

End MainLifecycle.

(** ** server/chatbot.py: from start-up to the chat loop *)
Module ConsoleStartup.
Import Py Schema Eff Eff.Notations LangChain Chatbot.

Definition FAISS_INDEX_PATH : string := "faiss_index".

Section Startup.
Context {Vec : Type}.

(** The disk, the library calls and the crawl, as [chatbot_with_rag] meets
    them.  [scraped] is the list [scraper.scrape_website()] returns. *)
Record Environment : Type := mkEnvironment {
  index_exists : bool;
  load_local : Embeddings Vec -> exn + FAISS Vec;
  split_text : string -> list string;
  from_texts :
    list string -> Embeddings Vec -> list (gmap string string) -> exn + FAISS Vec;
  save_local : FAISS Vec -> exn + unit;
  scraped : list Page;
  new_embeddings : Embeddings Vec;
  new_llm : ChatGroq
}.

Definition set_vectorstore (vs : FAISS Vec) (self : RAGSystem Vec) : RAGSystem Vec :=
  {| embeddings := embeddings self; vectorstore := Some vs |}.

(** [RAGSystem.process_and_store_documents]; the state is the object. *)
Definition process_and_store_documents (env : Environment) (documents : list Page)
    : eff (RAGSystem Vec) unit :=
  run emit (Print [Lit (nl +:+ "Processing documents...")]);
  let chunked := chunk_documents (split_text env) documents in
  run emit (Print [Lit ("Created " +:+ pretty (length chunked.1) +:+ " text chunks")]);
  run emit (Print [Lit "Creating embeddings and storing in FAISS..."]);
  do self <- get;
  do vs <- lift (from_texts env chunked.1 (embeddings self) chunked.2);
  run modify (set_vectorstore vs);
  run emit (Print [Lit ("Saving FAISS index to " +:+ FAISS_INDEX_PATH +:+ "...")]);
  run lift (save_local env vs);
  emit (Print [Lit "Documents stored successfully!"]).

(** [RAGSystem.load_existing_vectorstore]; a missing index raises
    [FileNotFoundError], an [Exception] like any other to the caller. *)
Definition load_existing_vectorstore (env : Environment)
    : eff (RAGSystem Vec) unit :=
  if negb (index_exists env) then
    raise (Exception ("FAISS index not found at " +:+ FAISS_INDEX_PATH))
  else
    run emit (Print [Lit ("Loading existing FAISS index from "
                          +:+ FAISS_INDEX_PATH +:+ "...")]);
    do self <- get;
    do vs <- lift (load_local env (embeddings self));
    run modify (set_vectorstore vs);
    emit (Print [Lit "FAISS index loaded successfully!"]).

(** The two branches that scrape: store the documents, or leave when there
    are none.  [Some rest] hands the unread input to the chat loop, [None] is
    the early [return]. *)
Definition scrape_and_store (env : Environment) (rest : list string)
    : eff (RAGSystem Vec) (option (list string)) :=
  let documents := scraped env in
  match documents with
  | [] =>
      run emit (Print [Lit "No documents scraped. Exiting..."]);
      ret None
  | _ =>
      run process_and_store_documents env documents;
      ret (Some rest)
  end.

(** [chatbot_with_rag] up to the banner before the loop. *)
Definition prepare (env : Environment) (stdin : list string)
    : eff (RAGSystem Vec) (option (list string)) :=
  run emit (Print [Lit (nl +:+ "Checking for existing FAISS index...")]);
  if index_exists env then
    match stdin with
    | [] => raise EOFError
    | line :: rest =>
        let choice := lower (strip line) in
        if String.eqb choice "y" then scrape_and_store env rest
        else
          try_except
            (run load_existing_vectorstore env; ret (Some rest))
            (fun e =>
               run emit (Print [Lit "Error loading vectorstore: "; StrOf e]);
               run emit (Print [Lit "Please re-scrape the website."]);
               ret None)
    end
  else
    run emit (Print [Lit "No existing FAISS index found. Scraping website..."]);
    scrape_and_store env stdin.

Definition rule : string :=
  "==================================================".

(** The lines printed before the index is looked for: the banner and the
    two lines of [RAGSystem.__init__]. *)
Definition banner : list event :=
  [Print [Lit rule]; Print [Lit "RAG Chatbot (Groq + LangChain + FAISS)"];
   Print [Lit rule];
   Print [Lit "Initializing embeddings model..."];
   Print [Lit "Embeddings model loaded!"]].

(** The lines printed before the first prompt. *)
Definition ready_banner : list event :=
  [Print [Lit (nl +:+ rule)];
   Print [Lit "Chatbot ready! Ask questions about Agiteks."];
   Print [Lit ("Type 'quit', 'exit', or 'bye' to end" +:+ nl)]].

(** [chatbot_with_rag]: the printed lines and oracle calls of the whole
    session, the conversation history it ends with and how it ends.  The
    progress lines of the crawl are not in the log. *)
Definition chatbot_with_rag (env : Environment) (stdin : list string)
    : list event * list message * (exn + unit) :=
  let rag0 := {| embeddings := new_embeddings env; vectorstore := None |} in
  match prepare env stdin rag0 with
  | (l, _, inl e) => (banner ++ l, [], inl e)
  | (l, _, inr None) => (banner ++ l, [], inr tt)
  | (l, rag, inr (Some rest)) =>
      let '(l', h, r) := chat_loop (new_llm env) rag rest [] in
      (banner ++ l ++ ready_banner ++ l', h, r)
  end.
End Startup.

Arguments Environment : clear implicits.

End ConsoleStartup.

(** ** The shape of a conversation history *)
Module HistorySpec.
Import Schema.

(** A history made of exchanges: a user message, then the reply to it. *)
Inductive exchanges : list message -> Prop :=
  | exchanges_nil : exchanges []
  | exchanges_cons (user reply : string) (h : list message) :
      exchanges h -> exchanges (HumanMessage user :: AIMessage reply :: h).

(** [doc.metadata.get('source', 'Unknown')] *)
Definition source_of (doc : Document) : string :=
  default "Unknown" (metadata doc !! "source").

(** The section of the context for the document retrieved at [rank]:
    [f"[Source {rank}: {source}]\n{doc.page_content}"]. *)
Definition section_of (rank : nat) (doc : Document) : string :=
  "[Source " +:+ pretty rank +:+ ": " +:+ source_of doc +:+ "]" +:+ Py.nl
  +:+ page_content doc.

(** One section per document, numbered from 1 in the order of the list. *)
Definition sections (docs : list Document) : list string :=
  imap (fun i doc => section_of (S i) doc) docs.

(** The line is one of the quit words, in any letter case and with any
    white space around it. *)
Definition is_quit (line : string) : bool :=
  Py.str_in (Py.lower (Py.strip line)) ["quit"; "exit"; "bye"].

(** The prompt starts with a system message, ends with the user's message
    and holds at most six messages between them. *)
Definition windowed (prompt : list message) (user_message : string) : Prop :=
  exists system middle,
    prompt = [SystemMessage system] ++ middle ++ [HumanMessage user_message]
    /\ (length middle <= 6)%nat.

End HistorySpec.

(** ** Environments to start the two programs in *)
Module ExampleStartup.
Import Py Schema Eff LangChain ExampleServer.

(** A server environment with the key set and an index that loads. *)
Definition server_env : MainLifecycle.Environment Z :=
  {| MainLifecycle.GROQ_API_KEY := Some "gsk_example";
     MainLifecycle.index_exists := true;
     MainLifecycle.load_local := fun _ => inr store;
     MainLifecycle.new_embeddings := inr embed;
     MainLifecycle.new_llm := inr groq |}.

(** The same environment before the scraper has written an index. *)
Definition server_env_no_index : MainLifecycle.Environment Z :=
  {| MainLifecycle.GROQ_API_KEY := Some "gsk_example";
     MainLifecycle.index_exists := false;
     MainLifecycle.load_local :=
       fun _ => inl (MainLifecycle.FileNotFoundError "faiss_index/index.faiss");
     MainLifecycle.new_embeddings := inr embed;
     MainLifecycle.new_llm := inr groq |}.

(** The environment of a machine on which the embedding model does not
    load. *)
Definition server_env_no_model : MainLifecycle.Environment Z :=
  {| MainLifecycle.GROQ_API_KEY := Some "gsk_example";
     MainLifecycle.index_exists := true;
     MainLifecycle.load_local := fun _ => inr store;
     MainLifecycle.new_embeddings :=
       inl (MainLifecycle.LibraryError (Exception "model download failed"));
     MainLifecycle.new_llm := inr groq |}.

(** A server whose model client fails on every call. *)
Definition degraded : Main.globals Z :=
  {| Main.rag_system := Some rag; Main.llm := Some groq_down;
     Main.conversation_histories := ∅ |}.

(** A request that differs from [ask ten_turns] in its role, in the white
    space around its content and in the history before the last six turns. *)
Definition ask_again : Main.ChatRequest :=
  {| Main.req_content := "What do you offer?"; Main.req_role := "bot";
     Main.conversation_history := Some (drop 4 ten_turns) |}.

(** An index built by embedding each text as its length. *)
Definition build (texts : list string) (emb : Embeddings Z)
    (metadatas : list (gmap string string)) : exn + FAISS Z :=
  inr {| embedding_function := emb; nearer := closer;
         records :=
           zip_with
             (fun text meta =>
                (Z.of_nat (String.length text),
                 {| page_content := text; metadata := meta |}))
             texts metadatas |}.


(** A first run on a site that yields no document. *)
Definition console_env_empty_site : ConsoleStartup.Environment Z :=
  {| ConsoleStartup.index_exists := false;
     ConsoleStartup.load_local := fun _ => inl (Exception "no index");
     ConsoleStartup.split_text := fun text => [text];
     ConsoleStartup.from_texts := build;
     ConsoleStartup.save_local := fun _ => inr tt;
     ConsoleStartup.scraped := [];
     ConsoleStartup.new_embeddings := embed;
     ConsoleStartup.new_llm := groq |}.

(** An index on disk that does not load. *)
Definition console_env_corrupt : ConsoleStartup.Environment Z :=
  {| ConsoleStartup.index_exists := true;
     ConsoleStartup.load_local := fun _ => inl (Exception "corrupt index");
     ConsoleStartup.split_text := fun text => [text];
     ConsoleStartup.from_texts := build;
     ConsoleStartup.save_local := fun _ => inr tt;
     ConsoleStartup.scraped := [];
     ConsoleStartup.new_embeddings := embed;
     ConsoleStartup.new_llm := groq |}.


End ExampleStartup.

(** * Facts about the string methods *)
Module PyFacts.
Import Py.

Lemma lstrip_fixed s : head_ok s = true -> lstrip s = s.
Proof.
  destruct s as [|c r]; simpl; [done|].
  intros H. apply negb_true_iff in H. by rewrite H.
Qed.

Lemma rstrip_fixed s : last_ok s = true -> rstrip s = s.
Proof.
  induction s as [|c r IH]; simpl; [done|].
  destruct r as [|c' r'].
  - simpl. intros H. apply negb_true_iff in H. by rewrite H.
  - intros H. rewrite (IH H). done.
Qed.

Lemma strip_fixed s : head_ok s = true -> last_ok s = true -> strip s = s.
Proof.
  intros Hh Hl. unfold strip. rewrite (lstrip_fixed _ Hh). by apply rstrip_fixed.
Qed.

Lemma lstrip_head_ok s : head_ok (lstrip s) = true.
Proof.
  induction s as [|c r IH]; simpl; [done|].
  destruct (isspace c) eqn:E; [done|]. simpl. by rewrite E.
Qed.

Lemma rstrip_cons_nonspace c r :
  isspace c = false -> rstrip (String c r) = String c (rstrip r).
Proof. simpl. intros ->. by destruct (rstrip r). Qed.

Lemma rstrip_head_ok s : head_ok s = true -> head_ok (rstrip s) = true.
Proof.
  destruct s as [|c r]; [done|].
  intros H. apply negb_true_iff in H. rewrite (rstrip_cons_nonspace _ _ H).
  simpl. by rewrite H.
Qed.

Lemma rstrip_last_ok s : last_ok (rstrip s) = true.
Proof.
  induction s as [|c r IH]; simpl; [done|].
  destruct (rstrip r) as [|c' r'] eqn:E.
  - destruct (isspace c) eqn:Ec; simpl; [done|]. by rewrite Ec.
  - exact IH.
Qed.

Lemma strip_head_ok s : head_ok (strip s) = true.
Proof. apply rstrip_head_ok, lstrip_head_ok. Qed.

Lemma strip_last_ok s : last_ok (strip s) = true.
Proof. apply rstrip_last_ok. Qed.

(** Stripping twice is stripping once. *)
Lemma strip_idempotent s : strip (strip s) = strip s.
Proof. apply strip_fixed; [apply strip_head_ok | apply strip_last_ok]. Qed.

Lemma lstrip_blank s : lstrip s = EmptyString <-> blank s = true.
Proof.
  induction s as [|c r IH]; simpl; [done|].
  destruct (isspace c); simpl; [done|]. split; intros; done.
Qed.

(** [strip] leaves nothing exactly of the blank strings. *)
Lemma strip_blank s : truthy (strip s) = false <-> blank s = true.
Proof.
  rewrite <- lstrip_blank. unfold strip.
  pose proof (lstrip_head_ok s) as Hh.
  destruct (lstrip s) as [|c r]; [done|].
  simpl in Hh. apply negb_true_iff in Hh.
  rewrite (rstrip_cons_nonspace _ _ Hh). simpl. split; intros; done.
Qed.

Lemma truthy_length s : truthy s = true <-> (0 < String.length s)%nat.
Proof. destruct s; simpl; split; intros; try done; lia. Qed.

Lemma append_head_ok a b :
  truthy a = true -> head_ok a = true -> head_ok (a +:+ b) = true.
Proof. by destruct a. Qed.

Lemma append_truthy_r a b : truthy b = true -> truthy (a +:+ b) = true.
Proof. by destruct a. Qed.

Lemma append_last_ok a b :
  truthy b = true -> last_ok b = true -> last_ok (a +:+ b) = true.
Proof.
  intros Hb Hl. induction a as [|c r IH]; [done|].
  change (String c r +:+ b) with (String c (r +:+ b)).
  pose proof (append_truthy_r r b Hb) as Ht.
  simpl. destruct (r +:+ b); [done | exact IH].
Qed.

Lemma join_pieces sep l :
  Forall piece l ->
  head_ok (join sep l) = true /\ last_ok (join sep l) = true
  /\ (l <> [] -> truthy (join sep l) = true).
Proof.
  unfold join. induction 1 as [|x l [Ht [Hh Hl]] Hall IH]; [done|].
  destruct l as [|y l'].
  - simpl. done.
  - destruct IH as (IHh & IHl & IHt).
    change (String.concat sep (x :: y :: l'))
      with (x +:+ sep +:+ String.concat sep (y :: l')).
    assert (truthy (String.concat sep (y :: l')) = true) as Hrest
      by (by apply IHt).
    split; [by apply append_head_ok|].
    split.
    + apply append_last_ok; [by apply append_truthy_r|].
      by apply append_last_ok.
    + intros _. by destruct x.
Qed.

Lemma stripped_pieces l : Forall piece (List.filter truthy (map strip l)).
Proof.
  apply Forall_forall. intros p Hp.
  apply list_elem_of_In, filter_In in Hp as [Hin Ht].
  apply in_map_iff in Hin as (n & <- & _).
  split; [done|]. split; [apply strip_head_ok | apply strip_last_ok].
Qed.

End PyFacts.

(** * The crawler *)
Module ScraperProofs.
Import Py PyFacts Chatbot CrawlSpec.

Lemma get_text_trimmed sep soup : strip (get_text sep soup) = get_text sep soup.
Proof.
  unfold get_text.
  destruct (join_pieces sep _ (stripped_pieces (strings soup))) as (Hh & Hl & _).
  by apply strip_fixed.
Qed.

Lemma long_enough_get_text sep soup :
  long_enough (Some (get_text sep soup))
  = (100 <? String.length (get_text sep soup))%nat.
Proof.
  unfold long_enough. rewrite get_text_trimmed.
  destruct (100 <? _)%nat eqn:E; [|by rewrite andb_false_r].
  apply Nat.ltb_lt in E. rewrite andb_true_r.
  apply truthy_length. lia.
Qed.

Section Crawl.
Context (requests_get : string -> option Soup)
        (urljoin : string -> string -> string)
        (netloc : string -> string).

Abbreviation step := (step requests_get urljoin netloc).
Abbreviation steps := (steps requests_get urljoin netloc).
Abbreviation scrape_page := (scrape_page requests_get urljoin netloc).
Abbreviation extracted_text := (extracted_text requests_get).
Abbreviation same_domain := (same_domain netloc).
Abbreviation has_long_text := (has_long_text requests_get).
Abbreviation documents_ok := (documents_ok requests_get).

(** The two ways through the loop body. *)
Lemma step_Some c c' :
  step c = Some c' ->
  exists url rest,
    to_visit c = url :: rest
    /\ (Z.of_nat (size (visited_urls (self c))) < max_pages (self c))%Z
    /\ (((url ∈ visited_urls (self c))
         /\ c' = {| self := self c; to_visit := rest;
                    documents := documents c; fetched := fetched c |})
        \/ ((url ∉ visited_urls (self c))
            /\ self c' = visit (self c) url
            /\ to_visit c' =
                 rest ++ List.filter
                           (fun link => bool_decide (link ∉ visited_urls (visit (self c) url)))
                           (scrape_page (visit (self c) url) url).2
            /\ documents c' =
                 (if long_enough (scrape_page (visit (self c) url) url).1
                  then documents c ++
                       [{| content := default EmptyString
                                        (scrape_page (visit (self c) url) url).1;
                           source := url |}]
                  else documents c)
            /\ fetched c' = fetched c ++ [url])).
Proof.
  unfold Chatbot.step. destruct (to_visit c) as [|url rest]; [done|].
  destruct (Z.ltb_spec (Z.of_nat (size (visited_urls (self c)))) (max_pages (self c)))
    as [Hlt|]; [|done].
  intros H. exists url, rest. split; [done|]. split; [done|].
  destruct (decide (url ∈ visited_urls (self c))) as [Hin|Hnin].
  - left. by simplify_eq.
  - right. fold (visit (self c) url) in H.
    destruct (scrape_page (visit (self c) url) url) as [text links].
    by simplify_eq.
Qed.

Lemma steps_ind (P : Crawl -> Prop) :
  (forall c c', P c -> step c = Some c' -> P c') ->
  forall n c, P c -> P (steps n c).
Proof.
  intros Hstep n. induction n as [|n IH]; intros c Hc; simpl; [done|].
  destruct (step c) as [c'|] eqn:E; [|done].
  apply IH. by eapply Hstep.
Qed.

Lemma scrape_page_text s url : (scrape_page s url).1 = extracted_text url.
Proof.
  unfold Chatbot.scrape_page, Chatbot.extracted_text.
  by destruct (requests_get url).
Qed.

Lemma scrape_page_links s url link :
  link ∈ (scrape_page s url).2 -> netloc link = domain s.
Proof.
  unfold Chatbot.scrape_page. destruct (requests_get url) as [soup|]; simpl.
  - intros H. apply list_elem_of_In, filter_In in H as [_ H].
    apply andb_true_iff in H as [H _]. by apply String.eqb_eq in H.
  - by intros ?%elem_of_nil.
Qed.

(** ** The page cap and the domain *)

Lemma step_fixed c c' :
  step c = Some c' ->
  base_url (self c') = base_url (self c)
  /\ max_pages (self c') = max_pages (self c)
  /\ domain (self c') = domain (self c).
Proof.
  intros (url & rest & _ & _ & [[_ ->]|(_ & -> & _)])%step_Some; done.
Qed.

Lemma steps_fixed n c :
  base_url (self (steps n c)) = base_url (self c)
  /\ max_pages (self (steps n c)) = max_pages (self c)
  /\ domain (self (steps n c)) = domain (self c).
Proof.
  revert c. induction n as [|n IH]; intros c; simpl; [done|].
  destruct (step c) as [c'|] eqn:E; [|done].
  destruct (step_fixed _ _ E) as (<- & <- & <-). apply IH.
Qed.

Lemma step_capped c c' : capped c -> step c = Some c' -> capped c'.
Proof.
  unfold capped.
  intros Hc (url & rest & _ & Hlt & [[_ ->]|(Hnin & -> & _)])%step_Some; [done|].
  simpl. rewrite size_union; [|set_solver]. rewrite size_singleton. lia.
Qed.

Lemma step_same_domain c c' : same_domain c -> step c = Some c' -> same_domain c'.
Proof.
  intros (Hd & Hv & Hq) (url & rest & Hq' & _ & Hcase)%step_Some.
  rewrite Hq' in Hq.
  destruct Hcase as [[_ ->]|(Hnin & Hs & Ht & _)].
  - split; [done|]. split; [done|]. simpl. intros u Hu. apply Hq. set_solver.
  - unfold CrawlSpec.same_domain. rewrite Hs, Ht. simpl.
    split; [done|]. split.
    + intros u [->%elem_of_singleton|Hu]%elem_of_union; [|by apply Hv].
      apply Hq. set_solver.
    + intros u [Hu|Hu]%elem_of_app; [apply Hq; set_solver|].
      apply list_elem_of_In, filter_In in Hu as [Hu%list_elem_of_In _].
      by apply scrape_page_links in Hu.
Qed.

(** ** Every fetch is a first visit *)

Lemma step_fetched_once c c' : fetched_once c -> step c = Some c' -> fetched_once c'.
Proof.
  intros [Hnd Hsub] (url & rest & _ & _ & Hcase)%step_Some.
  destruct Hcase as [[_ ->]|(Hnin & Hs & _ & _ & Hf)]; [done|].
  unfold fetched_once. rewrite Hs, Hf. simpl. split.
  - apply NoDup_app. split; [done|]. split; [|apply NoDup_singleton].
    intros u Hu ->%list_elem_of_singleton. by apply Hnin, Hsub.
  - intros u [Hu| ->%list_elem_of_singleton]%elem_of_app; set_solver.
Qed.

(** ** Which pages become documents *)

Lemma long_enough_extracted url :
  long_enough (extracted_text url) = true <-> has_long_text url.
Proof.
  unfold CrawlSpec.has_long_text, Chatbot.extracted_text.
  destruct (requests_get url) as [soup|]; simpl.
  - change (truthy (get_text " " soup) && _)
      with (long_enough (Some (get_text " " soup))).
    rewrite long_enough_get_text, Nat.ltb_lt. split.
    + intros H. by eexists.
    + by intros (t & [= <-] & H).
  - split; [done | by intros (t & ? & _)].
Qed.

Lemma step_documents_ok c c' : documents_ok c -> step c = Some c' -> documents_ok c'.
Proof.
  intros (Hfv & Hdf & Hiff) (url & rest & _ & _ & Hcase)%step_Some.
  destruct Hcase as [[_ ->]|(Hnin & Hs & _ & Hd & Hf)]; [done|].
  rewrite scrape_page_text in Hd.
  assert (Hfresh : ~ emitted c url).
  { intros (d & Hin & Hsrc). apply Hnin, Hfv. rewrite <- Hsrc. by apply Hdf. }
  unfold CrawlSpec.documents_ok, emitted. rewrite Hs, Hf, Hd. simpl.
  split; [|split].
  - intros u [Hu|Hu%list_elem_of_singleton]%elem_of_app; apply elem_of_union;
      [right; by apply Hfv | left; by apply elem_of_singleton].
  - intros d Hin. apply elem_of_app.
    destruct (long_enough (extracted_text url)).
    + apply elem_of_app in Hin as [Hin|Hin%list_elem_of_singleton];
        [left; by apply Hdf | right; subst d; by apply list_elem_of_singleton].
    + left. by apply Hdf.
  - intros u [Hu| ->%list_elem_of_singleton]%elem_of_app.
    + rewrite <- (Hiff u Hu). unfold emitted.
      destruct (long_enough (extracted_text url)); [|done].
      split.
      * intros (d & [Hin| ->%list_elem_of_singleton]%elem_of_app & Hsrc);
          [by exists d|].
        simpl in Hsrc. subst u. exfalso. by apply Hnin, Hfv.
      * intros (d & Hin & Hsrc). exists d. split; [|done].
        apply elem_of_app. by left.
    + rewrite <- long_enough_extracted.
      destruct (long_enough (extracted_text url)).
      * split; [done|]. intros _. eexists (mkPage _ url). split; [|done].
        apply elem_of_app. right. by apply list_elem_of_singleton.
      * split; [|done]. intros H. by destruct Hfresh.
Qed.

(** ** The run from a fresh scraper *)

Lemma start_capped base max :
  (0 <= max)%Z -> capped (start (init netloc base max)).
Proof.
  intros H. unfold capped, start, init. cbn [self visited_urls max_pages].
  by rewrite size_empty.
Qed.

Lemma start_same_domain base max : same_domain (start (init netloc base max)).
Proof.
  split; [done|]. split; simpl.
  - intros u Hu. set_solver.
  - by intros u ->%list_elem_of_singleton.
Qed.

Lemma start_fetched_once base max : fetched_once (start (init netloc base max)).
Proof. split; simpl; [apply NoDup_nil_2 | by intros u ?%elem_of_nil]. Qed.

Lemma start_documents_ok base max : documents_ok (start (init netloc base max)).
Proof.
  split; [|split]; cbn [start fetched documents].
  - by intros u ?%elem_of_nil.
  - by intros d ?%elem_of_nil.
  - by intros u ?%elem_of_nil.
Qed.

(** The loop is left after finitely many iterations: each iteration either
    visits a new page, of which the cap allows finitely many, or drops an
    already visited URL from the queue. *)
Lemma scrape_website_from_terminates c :
  exists fuel docs, scrape_website_from requests_get urljoin netloc fuel c = Some docs.
Proof.
  remember (Z.to_nat (max_pages (self c) - Z.of_nat (size (visited_urls (self c)))))
    as m eqn:Hm.
  assert (Hle : (Z.to_nat (max_pages (self c)
                           - Z.of_nat (size (visited_urls (self c)))) <= m)%nat) by lia.
  clear Hm. revert c Hle.
  induction m as [|m IHm]; intros c Hle.
  - exists O, (documents c). unfold scrape_website_from.
    destruct (step c) as [c'|] eqn:E; [|done].
    apply step_Some in E as (? & ? & _ & Hlt & _). lia.
  - remember (length (to_visit c)) as k eqn:Hk.
    revert c Hle Hk. induction k as [|k IHk]; intros c Hle Hk.
    + exists O, (documents c). unfold scrape_website_from, Chatbot.step.
      by destruct (to_visit c).
    + destruct (step c) as [c'|] eqn:E.
      * pose proof E as (url & rest & Hq & Hlt & Hcase)%step_Some.
        assert (exists fuel docs,
                  scrape_website_from requests_get urljoin netloc fuel c' = Some docs)
          as (fuel & docs & Hrun).
        { destruct Hcase as [[_ ->]|(Hnin & Hs & _)].
          - apply IHk; simpl; [done|]. rewrite Hq in Hk. simpl in Hk. lia.
          - apply IHm. rewrite Hs. simpl.
            rewrite size_union by set_solver. rewrite size_singleton. lia. }
        exists (S fuel), docs. simpl. by rewrite E.
      * exists O, (documents c). simpl. by rewrite E.
Qed.

Lemma scrape_website_terminates scraper :
  exists fuel docs, scrape_website requests_get urljoin netloc fuel scraper = Some docs.
Proof. apply scrape_website_from_terminates. Qed.

(** What [scrape_website] returns is the document list of the state in
    which the loop is left. *)
Lemma scrape_website_from_steps fuel c docs :
  scrape_website_from requests_get urljoin netloc fuel c = Some docs ->
  docs = documents (steps fuel c) /\ step (steps fuel c) = None.
Proof.
  revert c. induction fuel as [|fuel IH]; intros c; simpl.
  - destruct (step c) eqn:E; [done|]. by intros [= <-].
  - destruct (step c) as [c'|] eqn:E; [apply IH|].
    intros [= <-]. done.
Qed.

(** C5. During and after a crawl with a page cap [max_pages >= 0], that is
    after any number [n] of loop iterations from the fresh scraper, the
    visited set holds at most [max_pages] URLs and each of them has the
    netloc of the seed URL. *)
Theorem visited_within_cap_and_domain base max n :
  (0 <= max)%Z ->
  let c := steps n (start (init netloc base max)) in
  (Z.of_nat (size (visited_urls (self c))) <= max)%Z
  /\ (forall u, u ∈ visited_urls (self c) -> netloc u = netloc base).
Proof.
  intros Hmax c.
  assert (Hcap : capped c)
    by (apply (steps_ind capped step_capped), start_capped; done).
  assert (Hdom : same_domain c)
    by apply (steps_ind same_domain step_same_domain), start_same_domain.
  destruct (steps_fixed n (start (init netloc base max))) as (Hb & Hm & Hd).
  fold c in Hb, Hm, Hd. simpl in Hb, Hm, Hd.
  unfold capped in Hcap. rewrite Hm in Hcap. split; [done|].
  destruct Hdom as (_ & Hv & _). intros u Hu. rewrite (Hv u Hu). done.
Qed.

(** C6. Within one crawl run no URL is fetched twice: after any number of
    iterations the log of [scrape_page] calls has no duplicate, whatever the
    queue held. *)
Theorem no_url_fetched_twice base max n :
  NoDup (fetched (steps n (start (init netloc base max)))).
Proof.
  apply (steps_ind fetched_once step_fetched_once), start_fetched_once.
Qed.

(** C3. For every page the crawl has processed, a document with that page as
    its source is in the document list exactly when the page was fetched and
    the text extracted from it is longer than 100 characters. *)
Theorem document_iff_text_over_100 base max n url :
  let c := steps n (start (init netloc base max)) in
  url ∈ fetched c ->
  (exists d, d ∈ documents c /\ source d = url)
  <-> (exists text, extracted_text url = Some text
                    /\ (100 < String.length text)%nat).
Proof.
  intros c Hin.
  assert (Hok : documents_ok c)
    by apply (steps_ind documents_ok step_documents_ok), start_documents_ok.
  destruct Hok as (_ & _ & Hiff). exact (Hiff url Hin).
Qed.

End Crawl.

(** ** Chunks keep their document's source *)

Lemma chunk_documents_aligned split_text docs :
  length (chunk_documents split_text docs).1
  = length (chunk_documents split_text docs).2.
Proof.
  induction docs as [|doc rest IH]; [done|].
  cbn [chunk_documents fst snd]. rewrite !length_app, length_map. lia.
Qed.

Lemma chunk_documents_source split_text docs text meta :
  (text, meta) ∈ zip (chunk_documents split_text docs).1
                     (chunk_documents split_text docs).2 ->
  exists doc, doc ∈ docs /\ text ∈ split_text (content doc)
              /\ meta = {[ "source" := source doc ]}.
Proof.
  induction docs as [|doc rest IH]; cbn [chunk_documents fst snd].
  - by intros ?%elem_of_nil.
  - rewrite zip_with_app by (by rewrite length_map).
    intros [Hin|Hin]%elem_of_app.
    + exists doc. split; [apply list_elem_of_here|].
      split; [by apply elem_of_zip_l in Hin|].
      apply elem_of_zip_r, list_elem_of_In, in_map_iff in Hin as (? & <- & _).
      done.
    + destruct (IH Hin) as (d & Hd & Ht & Hm).
      exists d. split; [by apply list_elem_of_further | done].
Qed.
End ScraperProofs.

(** ** The crawler on the example site *)
Module ScraperExamples.
Import Py Chatbot ExampleSite ScraperProofs.

Example crawl_fetched : fetched (crawl 2 5) = [seed; seed +:+ "/services"].
Proof. vm_compute. reflexivity. Qed.

Example crawl_documents : map source (documents (crawl 2 5)) = [seed].
Proof. vm_compute. reflexivity. Qed.

Example crawl_returns :
  option_map (map source) (scrape_website requests_get urljoin netloc 5 (init netloc seed 2))
  = Some [seed].
Proof. vm_compute. reflexivity. Qed.

Lemma visited_within_cap_and_domain_witness :
  (0 <= 2)%Z
  /\ (Z.of_nat (size (visited_urls (self (crawl 2 5)))) <= 2)%Z
  /\ (forall u, u ∈ visited_urls (self (crawl 2 5)) -> netloc u = netloc seed).
Proof.
  split; [lia|].
  apply (visited_within_cap_and_domain requests_get urljoin netloc seed 2 5).
  lia.
Defined.

Lemma document_iff_text_over_100_witness :
  seed ∈ fetched (crawl 2 5)
  /\ ((exists d, d ∈ documents (crawl 2 5) /\ source d = seed)
      <-> (exists text, extracted_text requests_get seed = Some text
                        /\ (100 < String.length text)%nat)).
Proof.
  assert (H : seed ∈ fetched (crawl 2 5)).
  { rewrite crawl_fetched. apply list_elem_of_here. }
  split; [exact H|].
  exact (document_iff_text_over_100 requests_get urljoin netloc seed 2 5 seed H).
Defined.

End ScraperExamples.

(** * Retrieval *)
Module RetrievalProofs.
Import Py Schema Eff Eff.Notations LangChain.

Section Retrieval.
Context {Vec S : Type}.

(** A search embeds the query and ranks the stored vectors; it logs one
    event, leaves the state alone and raises only what the embedding raises. *)
Lemma similarity_search_run (vs : FAISS Vec) q k (s : S) :
  similarity_search vs q k s =
  ([SimilaritySearch q k], s,
   match embed_query (embedding_function vs) q with
   | inl e => inl e
   | inr v => inr (map snd (take k (sort_by (nearer vs v) (records vs))))
   end).
Proof.
  unfold similarity_search, bind, emit, lift, ret.
  by destruct (embed_query (embedding_function vs) q).
Qed.

Lemma nearest_of_none (le : Vec -> Vec -> bool) k :
  map snd (take k (sort_by le [])) = [].
Proof. by destruct k. Qed.

Lemma main_retrieve_unset (rag : Main.RAGSystem Vec) q k (s : S) :
  Main.vectorstore rag = None ->
  Main.retrieve_context rag q k s = ([], s, inr (EmptyString, [])).
Proof. unfold Main.retrieve_context. by intros ->. Qed.

Lemma chatbot_retrieve_unset (rag : Chatbot.RAGSystem Vec) q k (s : S) :
  Chatbot.vectorstore rag = None ->
  Chatbot.retrieve_context rag q k s = ([], s, inr EmptyString).
Proof. unfold Chatbot.retrieve_context. by intros ->. Qed.

Lemma main_retrieve_set (rag : Main.RAGSystem Vec) vs q k (s : S) :
  Main.vectorstore rag = Some vs ->
  Main.retrieve_context rag q k s =
  ([SimilaritySearch q k], s,
   match embed_query (embedding_function vs) q with
   | inl e => inl e
   | inr v =>
       let docs := map snd (take k (sort_by (nearer vs v) (records vs))) in
       inr (join (nl +:+ nl) (Main.context_parts 1 docs).1,
            (Main.context_parts 1 docs).2)
   end).
Proof.
  unfold Main.retrieve_context. intros ->.
  unfold bind. rewrite similarity_search_run.
  by destruct (embed_query (embedding_function vs) q).
Qed.

Lemma chatbot_retrieve_set (rag : Chatbot.RAGSystem Vec) vs q k (s : S) :
  Chatbot.vectorstore rag = Some vs ->
  Chatbot.retrieve_context rag q k s =
  ([SimilaritySearch q k], s,
   match embed_query (embedding_function vs) q with
   | inl e => inl e
   | inr v =>
       let docs := map snd (take k (sort_by (nearer vs v) (records vs))) in
       inr (join (nl +:+ nl) (Chatbot.context_parts 1 docs))
   end).
Proof.
  unfold Chatbot.retrieve_context. intros ->.
  unfold bind. rewrite similarity_search_run.
  by destruct (embed_query (embedding_function vs) q).
Qed.

(** Retrieval never writes the state and never calls the model. *)
Lemma main_retrieve_frame (rag : Main.RAGSystem Vec) q k (s : S) :
  exists l r, Main.retrieve_context rag q k s = (l, s, r) /\ invocations l = [].
Proof.
  destruct (Main.vectorstore rag) as [vs|] eqn:E.
  - rewrite (main_retrieve_set _ _ _ _ _ E). by eexists _, _.
  - rewrite (main_retrieve_unset _ _ _ _ E). by eexists _, _.
Qed.

Lemma chatbot_retrieve_frame (rag : Chatbot.RAGSystem Vec) q k (s : S) :
  exists l r, Chatbot.retrieve_context rag q k s = (l, s, r) /\ invocations l = [].
Proof.
  destruct (Chatbot.vectorstore rag) as [vs|] eqn:E.
  - rewrite (chatbot_retrieve_set _ _ _ _ _ E). by eexists _, _.
  - rewrite (chatbot_retrieve_unset _ _ _ _ E). by eexists _, _.
Qed.

(** C4. Searching an unset index returns the empty result without calling
    any oracle, and searching an index that holds no vector returns the empty
    result for every query the embedding oracle embeds; in the HTTP file the
    result is the empty context with the empty source list, in the console
    file the empty context.  Neither raises. *)
Theorem search_unset_or_empty_index
    (emb : Embeddings Vec) (le : Vec -> Vec -> Vec -> bool)
    (q : string) (k : nat) (s : S) (v : Vec) :
  embed_query emb q = inr v ->
  let empty := {| embedding_function := emb; nearer := le; records := [] |} in
  Main.retrieve_context
    {| Main.embeddings := emb; Main.vectorstore := None |} q k s
  = ([], s, inr (EmptyString, []))
  /\ Chatbot.retrieve_context
       {| Chatbot.embeddings := emb; Chatbot.vectorstore := None |} q k s
     = ([], s, inr EmptyString)
  /\ outcome_of (Main.retrieve_context
                   {| Main.embeddings := emb; Main.vectorstore := Some empty |} q k s)
     = inr (EmptyString, [])
  /\ outcome_of (Chatbot.retrieve_context
                   {| Chatbot.embeddings := emb; Chatbot.vectorstore := Some empty |}
                   q k s)
     = inr EmptyString.
Proof.
  intros Hv empty.
  split; [by apply main_retrieve_unset|].
  split; [by apply chatbot_retrieve_unset|].
  split.
  - rewrite (main_retrieve_set _ empty) by done.
    unfold outcome_of. cbn [snd embedding_function empty records].
    rewrite Hv. cbv zeta. by rewrite nearest_of_none.
  - rewrite (chatbot_retrieve_set _ empty) by done.
    unfold outcome_of. cbn [snd embedding_function empty records].
    rewrite Hv. cbv zeta. by rewrite nearest_of_none.
Qed.

End Retrieval.

Lemma search_unset_or_empty_index_witness :
  embed_query ExampleServer.embed "What do you offer?" = inr 18%Z
  /\ outcome_of (Main.retrieve_context
                   {| Main.embeddings := ExampleServer.embed;
                      Main.vectorstore := Some ExampleServer.empty_store |}
                   "What do you offer?" 3 tt)
     = inr (EmptyString, []).
Proof.
  split; [reflexivity|].
  exact (proj1 (proj2 (proj2
    (search_unset_or_empty_index ExampleServer.embed ExampleServer.closer
       "What do you offer?" 3 tt 18%Z eq_refl)))).
Defined.

End RetrievalProofs.

(** * The HTTP handler *)
Module ServerProofs.
Import Py Schema Eff Eff.Notations LangChain Main PromptSpec RetrievalProofs.

Lemma invocations_app l1 l2 :
  invocations (l1 ++ l2) = invocations l1 ++ invocations l2.
Proof.
  induction l1 as [|ev l1 IH]; [done|].
  destruct ev; simpl; by rewrite IH.
Qed.

Lemma invoke_run {S} (client : ChatGroq) messages (s : S) :
  invoke client messages s = ([Invoke messages], s, llm_oracle client messages).
Proof.
  unfold invoke, bind, emit, lift.
  by destruct (llm_oracle client messages).
Qed.

Section Handler.
Context {Vec : Type}.
Implicit Types (g : globals Vec) (rag : RAGSystem Vec) (request : ChatRequest).

(** The three guards before the [try]. *)
Lemma get_message_ready g rag vs client request :
  rag_system g = Some rag -> vectorstore rag = Some vs -> llm g = Some client ->
  get_message request g =
  try_except (process rag client request)
    (fun e =>
       run emit (Print [Lit "Error processing message: "; StrOf e]);
       raise (HTTPException 500 [Lit "Error processing your message: "; StrOf e]))
    g.
Proof.
  intros Hrag Hvs Hllm. unfold get_message, bind at 1, get.
  rewrite Hrag, Hvs, Hllm.
  by destruct (try_except _ _ g) as [[l s'] r].
Qed.

Lemma get_message_no_index g request :
  (rag_system g = None
   \/ exists rag, rag_system g = Some rag /\ vectorstore rag = None) ->
  get_message request g = ([], g, inl rag_not_initialized).
Proof.
  unfold get_message, bind, get.
  intros [->|(rag & -> & ->)]; reflexivity.
Qed.

Lemma get_message_no_llm g rag vs request :
  rag_system g = Some rag -> vectorstore rag = Some vs -> llm g = None ->
  get_message request g = ([], g, inl llm_not_initialized).
Proof.
  unfold get_message, bind, get. by intros -> -> ->.
Qed.

(** Without the index or without the model client the status is 503. *)
Lemma get_message_uninitialized_503 g request :
  (rag_system g = None
   \/ (exists rag, rag_system g = Some rag /\ vectorstore rag = None)
   \/ llm g = None) ->
  status_of (outcome_of (get_message request g)) = 503%Z.
Proof.
  intros [H|[H|H]].
  - rewrite get_message_no_index; [done | by left].
  - rewrite get_message_no_index; [done | by right].
  - destruct (rag_system g) as [rag|] eqn:Hrag;
      [|rewrite get_message_no_index; [done | by left]].
    destruct (vectorstore rag) as [vs|] eqn:Hvs;
      [|rewrite get_message_no_index; [done | right; by exists rag]].
    by rewrite (get_message_no_llm g rag vs).
Qed.

Lemma process_blank g rag client request :
  truthy (strip (req_content request)) = false ->
  process rag client request g = ([], g, inl empty_content).
Proof. unfold process. by intros ->. Qed.

(** The 400 raised for a blank message is raised inside the [try], so the
    [except Exception] clause catches it and answers 500. *)
Lemma get_message_blank g rag vs client request :
  rag_system g = Some rag -> vectorstore rag = Some vs -> llm g = Some client ->
  truthy (strip (req_content request)) = false ->
  get_message request g =
  ([Print [Lit "Error processing message: "; StrOf empty_content]], g,
   inl (HTTPException 500
          [Lit "Error processing your message: "; StrOf empty_content])).
Proof.
  intros Hrag Hvs Hllm Hblank.
  rewrite (get_message_ready g rag vs client) by done.
  unfold try_except. by rewrite process_blank.
Qed.

(** The run of the [try] block on a message that is not blank. *)
Lemma process_run g rag client request :
  truthy (strip (req_content request)) = true ->
  exists l r,
    retrieve_context rag (strip (req_content request)) 3 g = (l, g, r)
    /\ invocations l = []
    /\ process rag client request g =
       match r with
       | inl e => (l, g, inl e)
       | inr (context, srcs) =>
           let messages :=
             build_messages context request (strip (req_content request)) in
           (l ++ [Invoke messages], g,
            match llm_oracle client messages with
            | inl e => inl e
            | inr response =>
                inr {| resp_content := response; resp_role := "bot";
                       sources := match srcs with [] => None | _ => Some srcs end |}
            end)
       end.
Proof.
  intros Hmsg.
  destruct (main_retrieve_frame rag (strip (req_content request)) 3 g)
    as (l & r & Hrun & Hinv).
  exists l, r. split; [done|]. split; [done|].
  unfold process. rewrite Hmsg. cbn [negb]. unfold bind at 1. rewrite Hrun.
  destruct r as [e|[context srcs]]; [done|].
  unfold bind. rewrite invoke_run.
  cbv zeta. by destruct (llm_oracle client _).
Qed.






End Handler.
End ServerProofs.

(** * The console loop *)
Module ConsoleProofs.
Import Py Schema Eff Eff.Notations LangChain Chatbot PromptSpec.
Import RetrievalProofs ServerProofs.

Lemma truthy_false s : truthy s = false -> s = EmptyString.
Proof. by destruct s. Qed.

Section Console.
Context {Vec : Type}.
Implicit Types (rag : RAGSystem Vec) (llm : ChatGroq) (h : list message).

(** A blank line goes back to the prompt: nothing is logged or written. *)
Lemma turn_blank llm rag line h :
  truthy (strip line) = false -> turn llm rag line h = ([], h, inr true).
Proof.
  intros Hblank. unfold turn.
  rewrite (truthy_false _ Hblank). reflexivity.
Qed.

(** The run of one turn on a line that is neither blank nor a quit word, by
    the answers of the two oracles. *)
Lemma turn_run llm rag line h :
  str_in (lower (strip line)) quit_words = false ->
  truthy (strip line) = true ->
  exists l r,
    retrieve_context rag (strip line) 3 h = (l, h, r)
    /\ invocations l = []
    /\ turn llm rag line h =
       match r with
       | inl e => (l ++ [Print [Lit "Error: "; StrOf e; Lit nl]], h, inr true)
       | inr context =>
           let messages := build_messages context h (strip line) in
           match llm_oracle llm messages with
           | inl e =>
               (l ++ [Invoke messages; Print [Lit "Error: "; StrOf e; Lit nl]],
                h, inr true)
           | inr response =>
               (l ++ [Invoke messages;
                      Print [Lit ("Chatbot: " +:+ response +:+ nl)]],
                h ++ [HumanMessage (strip line); AIMessage response],
                inr true)
           end
       end.
Proof.
  intros Hquit Hmsg.
  destruct (chatbot_retrieve_frame rag (strip line) 3 h) as (l & r & Hrun & Hinv).
  exists l, r. split; [done|]. split; [done|].
  unfold turn. change ["quit"; "exit"; "bye"] with quit_words.
  rewrite Hquit, Hmsg. cbn [negb].
  unfold bind at 1, try_except, answer. unfold bind at 1. rewrite Hrun.
  destruct r as [e|context].
  - cbv [emit ret]. by rewrite app_nil_r.
  - unfold bind at 1, get. unfold bind at 1. rewrite invoke_run. cbv zeta.
    destruct (llm_oracle llm _) as [e|response].
    + cbv [emit ret]. cbn [app]. by rewrite app_nil_r, <- app_assoc.
    + cbv [bind modify emit ret]. cbn [app].
      by rewrite app_nil_r, <- !app_assoc.
Qed.

End Console.
End ConsoleProofs.

(** * Claims about a conversation turn *)
Module ConversationProofs.
Import Py PyFacts Schema Eff Eff.Notations LangChain PromptSpec.
Import RetrievalProofs ServerProofs ConsoleProofs ExampleServer.

(** C1, where the handler departs from it.  On a server whose index and
    model client are initialised, the request with the blank content ["   "]
    is answered with status 500: the 400 is raised inside the [try] block and
    the [except Exception] clause turns it into a 500.  A server without index
    answers the same request with 503. *)
Theorem blank_content_answers_500 :
  blank (Main.req_content blank_request) = true
  /\ Main.status_of (outcome_of (Main.get_message (Vec:=Z) blank_request ready)) = 500%Z
  /\ outcome_of (Main.get_message (Vec:=Z) blank_request ready)
     = inl (HTTPException 500
              [Lit "Error processing your message: ";
               StrOf (HTTPException 400 [Lit "Message content cannot be empty"])])
  /\ Main.status_of
       (outcome_of
          (Main.get_message (Vec:=Z) blank_request
             {| Main.rag_system := None; Main.llm := Some groq;
                Main.conversation_histories := ∅ |}))
     = 503%Z.
Proof. repeat split; vm_compute; reflexivity. Qed.

(** C8, where the HTTP handler departs from it.  The blank message ["   "]
    is turned away before any retrieval or model call in both programs: the
    console loop goes back to the prompt with nothing logged, and the [try]
    block of the handler raises the input error, the [HTTPException] with
    status 400, with nothing logged.  On the initialised server that input
    error does not reach the client: the [except Exception] clause around
    the [try] block answers with status 500. *)
Theorem blank_message_is_answered_500 :
  blank "   " = true
  /\ Chatbot.turn groq console_rag "   " console_history
     = ([], console_history, inr true)
  /\ Main.process rag groq blank_request ready
     = ([], ready, inl (HTTPException 400 [Lit "Message content cannot be empty"]))
  /\ Forall (fun ev => is_oracle_call ev = false)
            (log_of (Main.get_message (Vec:=Z) blank_request ready))
  /\ Main.status_of (outcome_of (Main.get_message (Vec:=Z) blank_request ready))
     = 500%Z
  /\ Main.status_of (outcome_of (Main.get_message (Vec:=Z) blank_request ready))
     <> 400%Z.
Proof.
  split; [reflexivity|]. split; [vm_compute; reflexivity|].
  split; [vm_compute; reflexivity|]. split; [|split].
  - rewrite (get_message_blank ready rag store groq) by reflexivity.
    by repeat constructor.
  - vm_compute. reflexivity.
  - rewrite (get_message_blank ready rag store groq) by reflexivity. done.
Qed.

Section Turn.
Context {Vec : Type}.

(** In every server state and on every history, a message that is empty or
    holds white space only leads to no oracle call: the HTTP handler raises
    an [HTTPException] and its log holds no retrieval and no model call; the
    console loop goes back to the prompt with an empty log and the history
    as it was. *)
Theorem blank_message_calls_no_oracle
    (g : Main.globals Vec) (request : Main.ChatRequest)
    (llm : ChatGroq) (rag : Chatbot.RAGSystem Vec)
    (line : string) (h : list message) :
  blank (Main.req_content request) = true ->
  blank line = true ->
  (exists code detail,
     outcome_of (Main.get_message request g) = inl (HTTPException code detail))
  /\ Forall (fun ev => is_oracle_call ev = false)
            (log_of (Main.get_message request g))
  /\ Chatbot.turn llm rag line h = ([], h, inr true).
Proof.
  intros Hreq%strip_blank Hline%strip_blank.
  split; [|split]; [| |by apply turn_blank].
  - destruct (Main.rag_system g) as [mrag|] eqn:Hrag;
      [|rewrite get_message_no_index; [by eexists _, _ | by left]].
    destruct (Main.vectorstore mrag) as [vs|] eqn:Hvs;
      [|rewrite get_message_no_index; [by eexists _, _ | right; by exists mrag]].
    destruct (Main.llm g) as [client|] eqn:Hllm.
    + rewrite (get_message_blank g mrag vs client) by done. by eexists _, _.
    + rewrite (get_message_no_llm g mrag vs) by done. by eexists _, _.
  - destruct (Main.rag_system g) as [mrag|] eqn:Hrag;
      [|rewrite get_message_no_index; [by constructor | by left]].
    destruct (Main.vectorstore mrag) as [vs|] eqn:Hvs;
      [|rewrite get_message_no_index; [by constructor | right; by exists mrag]].
    destruct (Main.llm g) as [client|] eqn:Hllm.
    + rewrite (get_message_blank g mrag vs client) by done.
      by repeat constructor.
    + rewrite (get_message_no_llm g mrag vs) by done. by constructor.
Qed.

(** A turn that returns [true] hands the state it leaves to the next pass
    of the loop. *)
Lemma chat_loop_continue llm (rag : Chatbot.RAGSystem Vec) line rest h l h' :
  Chatbot.turn llm rag line h = (l, h', inr true) ->
  Chatbot.chat_loop llm rag (line :: rest) h =
  let '(l', s, r) := Chatbot.chat_loop llm rag rest h' in (l ++ l', s, r).
Proof.
  intros Hturn. cbn [Chatbot.chat_loop]. unfold bind at 1. by rewrite Hturn.
Qed.

(** C10. In the console loop, when retrieval or the model call of a turn
    raises, the turn leaves the conversation history as it was, with neither
    the user message nor a reply appended, and the loop goes on with the next
    line on that same history. *)
Theorem failed_turn_keeps_history
    (llm : ChatGroq) (rag : Chatbot.RAGSystem Vec)
    (line : string) (rest : list string) (h : list message) (e : exn) :
  str_in (lower (strip line)) quit_words = false ->
  truthy (strip line) = true ->
  (outcome_of (Chatbot.retrieve_context rag (strip line) 3 h) = inl e
   \/ exists context,
        outcome_of (Chatbot.retrieve_context rag (strip line) 3 h) = inr context
        /\ llm_oracle llm (Chatbot.build_messages context h (strip line)) = inl e) ->
  state_of (Chatbot.turn llm rag line h) = h
  /\ outcome_of (Chatbot.turn llm rag line h) = inr true
  /\ state_of (Chatbot.chat_loop llm rag (line :: rest) h)
     = state_of (Chatbot.chat_loop llm rag rest h)
  /\ outcome_of (Chatbot.chat_loop llm rag (line :: rest) h)
     = outcome_of (Chatbot.chat_loop llm rag rest h)
  /\ log_of (Chatbot.chat_loop llm rag (line :: rest) h)
     = log_of (Chatbot.turn llm rag line h)
       ++ log_of (Chatbot.chat_loop llm rag rest h).
Proof.
  intros Hquit Hmsg Hfail.
  destruct (turn_run llm rag line h Hquit Hmsg) as (l & r & Hrun & _ & Hturn).
  rewrite Hrun in Hfail. unfold outcome_of in Hfail. cbn [snd] in Hfail.
  assert (exists l', Chatbot.turn llm rag line h = (l', h, inr true)) as [l' Hl'].
  { destruct Hfail as [->|(context & -> & Hllm)].
    - by eexists.
    - rewrite Hturn. cbv zeta. rewrite Hllm. by eexists. }
  rewrite (chat_loop_continue _ _ _ rest _ _ _ Hl'), Hl'.
  by destruct (Chatbot.chat_loop llm rag rest h) as [[l2 s2] r2].
Qed.


End Turn.
End ConversationProofs.

(** * The conversation claims on the example server *)
Module ConversationExamples.
Import Py Schema Eff LangChain PromptSpec ExampleServer ConversationProofs.

Lemma blank_message_calls_no_oracle_witness :
  blank "   " = true
  /\ (exists code detail,
        outcome_of (Main.get_message blank_request ready)
        = inl (HTTPException code detail))
  /\ Forall (fun ev => is_oracle_call ev = false)
            (log_of (Main.get_message blank_request ready))
  /\ Chatbot.turn groq console_rag "   " console_history
     = ([], console_history, inr true).
Proof.
  split; [reflexivity|].
  apply (blank_message_calls_no_oracle ready blank_request groq console_rag
           "   " console_history); reflexivity.
Defined.

Lemma failed_turn_keeps_history_witness :
  state_of (Chatbot.turn groq_down console_rag " hi there " console_history)
  = console_history
  /\ outcome_of (Chatbot.turn groq_down console_rag " hi there " console_history)
     = inr true.
Proof.
  pose proof (failed_turn_keeps_history groq_down console_rag " hi there " []
                console_history (Exception "rate limit exceeded")) as H.
  destruct H as (Hs & Ho & _).
  - reflexivity.
  - reflexivity.
  - right. exists (console_retrieved "hi there"). split; vm_compute; reflexivity.
  - split; [exact Hs | exact Ho].
Defined.



End ConversationExamples.

(** * More on the crawler *)
Module CrawlFacts.
Import Py PyFacts Chatbot CrawlSpec CrawlResult ScraperProofs.

Section Crawl.
Context (requests_get : string -> option Soup)
        (urljoin : string -> string -> string)
        (netloc : string -> string).

Abbreviation step := (step requests_get urljoin netloc).
Abbreviation steps := (steps requests_get urljoin netloc).
Abbreviation scrape_page := (scrape_page requests_get urljoin netloc).
Abbreviation extracted_text := (extracted_text requests_get).
Abbreviation page_of := (page_of requests_get).
Abbreviation links_on := (links_on requests_get urljoin).
Abbreviation fresh := (fun base max => start (init netloc base max)).
Abbreviation traced := (traced requests_get urljoin).

Lemma page_of_long_enough url :
  page_of url =
  if long_enough (extracted_text url)
  then Some {| content := default EmptyString (extracted_text url); source := url |}
  else None.
Proof.
  unfold CrawlResult.page_of, Chatbot.extracted_text.
  destruct (requests_get url) as [soup|]; [|done].
  cbn [fmap option_fmap option_map].
  by rewrite long_enough_get_text.
Qed.

Lemma step_documents c c' :
  documents c = omap page_of (fetched c) -> step c = Some c' ->
  documents c' = omap page_of (fetched c').
Proof.
  intros Hdocs (url & rest & _ & _ & Hcase)%step_Some.
  destruct Hcase as [[_ ->]|(_ & _ & _ & Hd & Hf)]; [done|].
  rewrite Hd, Hf, scrape_page_text, omap_app, <- Hdocs.
  cbn [omap list_omap]. rewrite page_of_long_enough.
  destruct (long_enough (extracted_text url)); [done|].
  by rewrite app_nil_r.
Qed.

Lemma documents_omap base max n :
  documents (steps n (fresh base max))
  = omap page_of (fetched (steps n (fresh base max))).
Proof.
  apply (steps_ind requests_get urljoin netloc
           (fun c => documents c = omap page_of (fetched c))); [|done].
  apply step_documents.
Qed.

(** X1. The documents are the fetched pages with a text of more than 100
    characters, in the order of fetching, each with its text and its URL. *)
Theorem documents_are_long_fetched_pages base max n :
  documents (steps n (fresh base max))
  = omap page_of (fetched (steps n (fresh base max))).
Proof. apply documents_omap. Qed.

Lemma step_fetched_set c c' :
  list_to_set (fetched c) = visited_urls (self c) -> step c = Some c' ->
  list_to_set (fetched c') = visited_urls (self c').
Proof.
  intros Hset (url & rest & _ & _ & Hcase)%step_Some.
  destruct Hcase as [[_ ->]|(_ & Hs & _ & _ & Hf)]; [done|].
  rewrite Hs, Hf, list_to_set_app_L, Hset. cbn [visit visited_urls].
  apply set_eq. intros x.
  rewrite !elem_of_union, elem_of_list_to_set, list_elem_of_singleton,
    elem_of_singleton.
  tauto.
Qed.

(** X2. The visited set is the set of fetched URLs, one fetch for each, so a
    crawl with a page cap [max_pages >= 0] fetches at most [max_pages]
    pages. *)
Theorem fetches_are_the_visited_set base max n :
  (0 <= max)%Z ->
  let c := steps n (fresh base max) in
  list_to_set (fetched c) = visited_urls (self c)
  /\ length (fetched c) = size (visited_urls (self c))
  /\ (Z.of_nat (length (fetched c)) <= max)%Z.
Proof.
  intros Hmax c.
  assert (Hset : list_to_set (fetched c) = visited_urls (self c)).
  { apply (steps_ind requests_get urljoin netloc
             (fun c => list_to_set (fetched c) = visited_urls (self c)));
      [apply step_fetched_set | done]. }
  assert (Hnd : NoDup (fetched c)).
  { apply (steps_ind requests_get urljoin netloc (fetched_once)
             (step_fetched_once requests_get urljoin netloc)),
          start_fetched_once. }
  assert (Hcap : capped c).
  { apply (steps_ind requests_get urljoin netloc capped
             (step_capped requests_get urljoin netloc)).
    by apply start_capped. }
  assert (Hlen : length (fetched c) = size (visited_urls (self c))).
  { rewrite <- Hset. symmetry. by apply size_list_to_set. }
  split; [done|]. split; [done|].
  unfold capped in Hcap.
  destruct (steps_fixed requests_get urljoin netloc n (fresh base max))
    as (_ & Hm & _).
  fold c in Hm. cbn in Hm. rewrite Hm in Hcap. lia.
Qed.

Lemma page_of_Some url p :
  page_of url = Some p ->
  source p = url /\ extracted_text url = Some (content p)
  /\ (100 < String.length (content p))%nat /\ strip (content p) = content p.
Proof.
  unfold CrawlResult.page_of, Chatbot.extracted_text.
  destruct (requests_get url) as [soup|]; [|done].
  cbn [fmap option_fmap option_map].
  destruct (Nat.ltb_spec 100 (String.length (get_text " " soup))); [|done].
  intros [= <-]. cbn [source content]. repeat split; try done.
  apply get_text_trimmed.
Qed.

Lemma omap_page_of_sources l :
  NoDup l -> NoDup (map source (omap page_of l))
             /\ (forall d, d ∈ omap page_of l -> source d ∈ l).
Proof.
  induction 1 as [|u l Hnin Hnd [IHnd IHin]]; [split; [constructor | by intros ? ?%elem_of_nil]|].
  cbn [omap list_omap].
  destruct (page_of u) as [p|] eqn:Hp.
  - apply page_of_Some in Hp as (Hsrc & _).
    split.
    + cbn [map]. constructor; [|done].
      intros (d & Hd & Hin%list_elem_of_In%IHin)%list_elem_of_In%in_map_iff.
      apply Hnin. congruence.
    + intros d [->|Hin]%elem_of_cons.
      * rewrite Hsrc. apply list_elem_of_here.
      * apply list_elem_of_further. by apply IHin.
  - split; [done|]. intros d Hin. apply list_elem_of_further. by apply IHin.
Qed.

Lemma length_omap_le {A B} (f : A -> option B) l :
  (length (omap f l) <= length l)%nat.
Proof.
  induction l as [|x l IH]; [done|].
  cbn [omap list_omap]. destruct (f x); cbn [length]; lia.
Qed.

(** X3. No two documents have the same source, every document's source was
    fetched, its content is the text extracted from that page, trimmed and
    longer than 100 characters, and there are no more documents than
    fetches. *)
Theorem documents_distinct_sources base max n :
  let c := steps n (fresh base max) in
  NoDup (map source (documents c))
  /\ (forall d, d ∈ documents c ->
        source d ∈ fetched c
        /\ extracted_text (source d) = Some (content d)
        /\ (100 < String.length (content d))%nat
        /\ strip (content d) = content d)
  /\ (length (documents c) <= length (fetched c))%nat.
Proof.
  intros c.
  assert (Hnd : NoDup (fetched c)).
  { apply (steps_ind requests_get urljoin netloc (fetched_once)
             (step_fetched_once requests_get urljoin netloc)),
          start_fetched_once. }
  unfold c. rewrite documents_omap. fold c.
  destruct (omap_page_of_sources _ Hnd) as [Hsrc Hin].
  split; [done|]. split; [|apply length_omap_le].
  intros d Hd. split; [by apply Hin|].
  apply list_elem_of_omap in Hd as (u & _ & Hp).
  apply page_of_Some in Hp as (<- & Ht & Hlen & Htrim). done.
Qed.

(** ** The queue *)

(** X4. Every URL waiting in the queue has the netloc of the seed: a link that
    leaves the domain is never enqueued. *)
Theorem queue_stays_in_domain base max n u :
  u ∈ to_visit (steps n (fresh base max)) -> netloc u = netloc base.
Proof.
  intros Hu.
  assert (Hdom : same_domain netloc (steps n (fresh base max))).
  { apply (steps_ind requests_get urljoin netloc (same_domain netloc)
             (step_same_domain requests_get urljoin netloc)),
          start_same_domain. }
  destruct Hdom as (_ & _ & Hq). rewrite (Hq u Hu).
  by destruct (steps_fixed requests_get urljoin netloc n (fresh base max))
    as (_ & _ & ->).
Qed.

Lemma scrape_page_links_on s url link :
  link ∈ (scrape_page s url).2 -> link ∈ links_on url.
Proof.
  unfold Chatbot.scrape_page, CrawlResult.links_on.
  destruct (requests_get url) as [soup|]; cbn [snd]; [|done].
  intros H. apply list_elem_of_In, filter_In in H as [H _].
  by apply list_elem_of_In.
Qed.

Lemma seed_or_linked_mono base pages pages' u :
  pages ⊆ pages' ->
  seed_or_linked requests_get urljoin base pages u ->
  seed_or_linked requests_get urljoin base pages' u.
Proof.
  intros Hsub [->|(page & Hin & Hl)]; [by left|].
  right. exists page. split; [by apply Hsub | done].
Qed.

Lemma step_traced base c c' : traced base c -> step c = Some c' -> traced base c'.
Proof.
  intros [Hq Hf] (url & rest & Hq' & _ & Hcase)%step_Some.
  rewrite Hq' in Hq.
  destruct Hcase as [[_ ->]|(_ & _ & Ht & _ & Hfe)].
  - split; [|done]. cbn [to_visit fetched]. intros u Hu.
    apply Hq. by apply list_elem_of_further.
  - unfold CrawlResult.traced. rewrite Ht, Hfe. split.
    + intros u [Hu|Hu]%elem_of_app.
      * apply (seed_or_linked_mono base (fetched c));
          [intros x Hx; apply elem_of_app; by left|].
        apply Hq. by apply list_elem_of_further.
      * right. exists url. split; [apply elem_of_app; right; apply list_elem_of_here|].
        apply list_elem_of_In, filter_In in Hu as [Hu%list_elem_of_In _].
        by apply scrape_page_links_on in Hu.
    + intros i u Hi.
      destruct (decide (i < length (fetched c))%nat) as [Hlt|Hge].
      * rewrite lookup_app_l in Hi by done.
        rewrite take_app_le by lia. by apply Hf.
      * rewrite lookup_app_r in Hi by lia.
        apply list_lookup_singleton_Some in Hi as [Hi <-].
        replace i with (length (fetched c)) by lia.
        rewrite take_app_length. apply Hq, list_elem_of_here.
Qed.

(** X5. The crawl follows links from the seed: each fetched URL is the seed or
    the target of an anchor on a page fetched before it. *)
Theorem fetched_pages_are_linked_from_earlier base max n i u :
  fetched (steps n (fresh base max)) !! i = Some u ->
  u = base
  \/ exists page,
       page ∈ take i (fetched (steps n (fresh base max)))
       /\ u ∈ links_on page.
Proof.
  intros Hi.
  assert (Htr : traced base (steps n (fresh base max))).
  { apply (steps_ind requests_get urljoin netloc (traced base) (step_traced base)).
    split.
    - intros x ->%list_elem_of_singleton. by left.
    - by intros j x ?. }
  destruct Htr as [_ Hf]. exact (Hf i u Hi).
Qed.

(** ** Leaving the loop *)

Lemma step_None c :
  step c = None ->
  to_visit c = []
  \/ (max_pages (self c) <= Z.of_nat (size (visited_urls (self c))))%Z.
Proof.
  unfold Chatbot.step. destruct (to_visit c) as [|url rest]; [by left|].
  destruct (Z.ltb_spec (Z.of_nat (size (visited_urls (self c)))) (max_pages (self c)));
    [|by right].
  destruct (decide (url ∈ visited_urls (self c))); [done|].
  by destruct (Chatbot.scrape_page _ _ _ _ _).
Qed.

(** X6. [scrape_website] returns for every site, every seed and every cap, and
    when it returns the queue is empty or the visited set has reached the
    cap. *)
Theorem scrape_website_returns base max :
  exists fuel docs,
    scrape_website requests_get urljoin netloc fuel (init netloc base max)
    = Some docs
    /\ docs = documents (steps fuel (fresh base max))
    /\ (to_visit (steps fuel (fresh base max)) = []
        \/ (max <= Z.of_nat (size (visited_urls (self (steps fuel (fresh base max))))))%Z).
Proof.
  destruct (scrape_website_terminates requests_get urljoin netloc
              (init netloc base max)) as (fuel & docs & Hrun).
  exists fuel, docs. split; [done|].
  apply scrape_website_from_steps in Hrun as [Hdocs Hstop].
  split; [done|].
  apply step_None in Hstop.
  destruct (steps_fixed requests_get urljoin netloc fuel (fresh base max))
    as (_ & Hm & _).
  by rewrite Hm in Hstop.
Qed.

(** X7. With a cap of zero or less the loop body never runs: nothing is fetched
    and the result is the empty list. *)
Theorem nonpositive_cap_fetches_nothing base max fuel :
  (max <= 0)%Z ->
  scrape_website requests_get urljoin netloc fuel (init netloc base max) = Some []
  /\ fetched (steps fuel (fresh base max)) = [].
Proof.
  intros Hmax.
  assert (Hstop : step (fresh base max) = None).
  { unfold Chatbot.step. cbn [to_visit start self init visited_urls max_pages base_url].
    rewrite size_empty.
    by destruct (Z.ltb_spec (Z.of_nat 0) max); [lia|]. }
  split.
  - unfold scrape_website. destruct fuel; cbn [scrape_website_from]; by rewrite Hstop.
  - destruct fuel; cbn [Chatbot.steps]; [done|]. by rewrite Hstop.
Qed.

End Crawl.

(** ** The chunks handed to the index *)

(** The loop over the documents, as two lists: the chunks of all documents
    in document order and, aligned with them, one metadata dictionary per
    chunk. *)
Lemma chunk_documents_flat split_text docs :
  chunk_documents split_text docs
  = (texts_of split_text docs, metadatas_of split_text docs)
  /\ length (texts_of split_text docs) = length (metadatas_of split_text docs).
Proof.
  assert (H : chunk_documents split_text docs
              = (texts_of split_text docs, metadatas_of split_text docs)).
  { induction docs as [|doc rest IH]; [done|].
    cbn [chunk_documents]. rewrite IH. cbn [fst snd].
    unfold texts_of, metadatas_of. cbn [flat_map]. f_equal. f_equal.
    induction (split_text (content doc)) as [|t l IHl]; [done|].
    cbn [map length replicate]. by rewrite IHl. }
  split; [done|].
  pose proof (chunk_documents_aligned split_text docs) as Hlen.
  by rewrite H in Hlen.
Qed.

End CrawlFacts.

(** * More on retrieval *)
Module RetrievalFacts.
Import Py Schema Eff Eff.Notations LangChain RetrievalProofs HistorySpec.

Lemma context_parts_agree i docs :
  (Main.context_parts i docs).1 = Chatbot.context_parts i docs
  /\ (Main.context_parts i docs).2 = map source_of docs.
Proof.
  revert i. induction docs as [|doc rest IH]; intros i; [done|].
  cbn [Main.context_parts Chatbot.context_parts map].
  destruct (IH (S i)) as [IH1 IH2].
  destruct (Main.context_parts (S i) rest) as [parts srcs].
  cbn [fst snd] in *. by rewrite IH1, IH2.
Qed.

Lemma context_parts_sections i docs :
  Chatbot.context_parts i docs = imap (fun j doc => section_of (i + j) doc) docs.
Proof.
  revert i. induction docs as [|doc rest IH]; intros i; [done|].
  cbn [Chatbot.context_parts imap]. rewrite Nat.add_0_r. f_equal.
  rewrite IH. apply imap_ext. intros j d _. cbn. f_equal. lia.
Qed.

(** X9. The two files build the same context: for one vector store, query
    and [k] the console's [retrieve_context] logs the calls the server's
    logs, raises what it raises and returns the context string it returns.
    When the search returns the documents [docs], nearest first, the context
    is one section ["[Source i: source]"], line feed, text per document,
    numbered from 1 in that order and joined by a blank line, and the
    server's source list is the ['source'] entry of each document's metadata
    in that order, ["Unknown"] where the entry is missing. *)
Theorem console_and_server_retrieve_alike {Vec S}
    (emb emb' : Embeddings Vec) (store : option (FAISS Vec))
    (q : string) (k : nat) (s : S) :
  let server := {| Main.embeddings := emb; Main.vectorstore := store |} in
  let console := {| Chatbot.embeddings := emb'; Chatbot.vectorstore := store |} in
  log_of (Chatbot.retrieve_context console q k s)
  = log_of (Main.retrieve_context server q k s)
  /\ outcome_of (Chatbot.retrieve_context console q k s)
     = match outcome_of (Main.retrieve_context server q k s) with
       | inl e => inl e
       | inr (context, _) => inr context
       end
  /\ (forall vs docs,
        store = Some vs ->
        outcome_of (similarity_search vs q k s) = inr docs ->
        outcome_of (Main.retrieve_context server q k s)
        = inr (join (nl +:+ nl) (sections docs), map source_of docs)).
Proof.
  intros server console. destruct store as [vs|].
  - rewrite (chatbot_retrieve_set console vs), (main_retrieve_set server vs) by done.
    unfold log_of, outcome_of. cbn [fst snd].
    split; [done|]. split.
    + destruct (embed_query (embedding_function vs) q) as [e|v]; cbv zeta; [done|].
      by destruct (context_parts_agree 1
                     (map snd (take k (sort_by (nearer vs v) (records vs)))))
        as [-> _].
    + intros vs' docs [= <-]. rewrite similarity_search_run. cbn [snd].
      destruct (embed_query (embedding_function vs) q) as [e|v]; [done|].
      intros [= <-]. cbv zeta.
      destruct (context_parts_agree 1
                  (map snd (take k (sort_by (nearer vs v) (records vs)))))
        as [-> ->].
      by rewrite context_parts_sections.
  - rewrite chatbot_retrieve_unset, main_retrieve_unset by done.
    split; [done|]. split; [done|]. by intros vs docs ?.
Qed.

End RetrievalFacts.

(** * More on the HTTP handlers *)
Module ServerFacts.
Import Py PyFacts Schema Eff Eff.Notations LangChain Main MainLifecycle.
Import HistorySpec RetrievalProofs ServerProofs.

Section Handler.
Context {Vec : Type}.
Implicit Types (g : globals Vec) (rag : RAGSystem Vec) (request : ChatRequest).

(** The answer of an initialised server to a message that is not blank, by
    the answers of the two oracles. *)
Lemma get_message_run g rag vs client request :
  rag_system g = Some rag -> vectorstore rag = Some vs -> llm g = Some client ->
  truthy (strip (req_content request)) = true ->
  exists r,
    retrieve_context rag (strip (req_content request)) 3 g
    = ([SimilaritySearch (strip (req_content request)) 3], g, r)
    /\ get_message request g =
       match r with
       | inl e =>
           ([SimilaritySearch (strip (req_content request)) 3;
             Print [Lit "Error processing message: "; StrOf e]],
            g,
            inl (HTTPException 500 [Lit "Error processing your message: "; StrOf e]))
       | inr (context, srcs) =>
           let messages :=
             build_messages context request (strip (req_content request)) in
           match llm_oracle client messages with
           | inl e =>
               ([SimilaritySearch (strip (req_content request)) 3;
                 Invoke messages;
                 Print [Lit "Error processing message: "; StrOf e]],
                g,
                inl (HTTPException 500
                       [Lit "Error processing your message: "; StrOf e]))
           | inr response =>
               ([SimilaritySearch (strip (req_content request)) 3;
                 Invoke messages],
                g,
                inr {| resp_content := response; resp_role := "bot";
                       sources := match srcs with [] => None | _ => Some srcs end |})
           end
       end.
Proof.
  intros Hrag Hvs Hllm Hmsg.
  destruct (process_run g rag client request Hmsg) as (l & r & Hrun & _ & Hp).
  pose proof Hrun as Hrun'.
  rewrite (main_retrieve_set rag vs) in Hrun' by done.
  injection Hrun' as <- Hr.
  exists r. split; [done|].
  rewrite (get_message_ready g rag vs client) by done.
  unfold try_except. rewrite Hp.
  destruct r as [e|[context srcs]]; [done|].
  cbv zeta. by destruct (llm_oracle client _).
Qed.

(** X10. The handler reads the module-level variables and writes none of them. *)
Theorem get_message_is_stateless g request :
  state_of (get_message request g) = g.
Proof.
  destruct (rag_system g) as [rag|] eqn:Hrag;
    [|rewrite get_message_no_index; [done | by left]].
  destruct (vectorstore rag) as [vs|] eqn:Hvs;
    [|rewrite get_message_no_index; [done | right; by exists rag]].
  destruct (llm g) as [client|] eqn:Hllm;
    [|by rewrite (get_message_no_llm g rag vs)].
  destruct (truthy (strip (req_content request))) eqn:Hmsg.
  - destruct (get_message_run g rag vs client request) as (r & _ & ->); try done.
    destruct r as [e|[context srcs]]; [done|].
    cbv zeta. by destruct (llm_oracle client _).
  - by rewrite (get_message_blank g rag vs client).
Qed.

(** X11. A request leads to at most one similarity search and at most one model
    call, and the model is called only right after the search for the
    trimmed message with [k = 3]. *)
Theorem one_search_then_one_call g request :
  let log := log_of (get_message request g) in
  (length (invocations log) <= 1)%nat
  /\ (forall prompt, Invoke prompt ∈ log ->
        exists rest,
          log = SimilaritySearch (strip (req_content request)) 3
                :: Invoke prompt :: rest).
Proof.
  cbv zeta.
  assert (Hnone : forall (r : exn + ChatResponse),
            get_message request g = ([], g, r) ->
            (length (invocations (log_of (get_message request g))) <= 1)%nat
            /\ (forall prompt, Invoke prompt ∈ log_of (get_message request g) ->
                  exists rest,
                    log_of (get_message request g)
                    = SimilaritySearch (strip (req_content request)) 3
                      :: Invoke prompt :: rest)).
  { intros r ->. split; [cbn; lia | by intros ? ?%elem_of_nil]. }
  destruct (rag_system g) as [rag|] eqn:Hrag;
    [|eapply Hnone, get_message_no_index; by left].
  destruct (vectorstore rag) as [vs|] eqn:Hvs;
    [|eapply Hnone, get_message_no_index; right; by exists rag].
  destruct (llm g) as [client|] eqn:Hllm;
    [|by eapply Hnone, (get_message_no_llm g rag vs)].
  clear Hnone.
  destruct (truthy (strip (req_content request))) eqn:Hmsg.
  - destruct (get_message_run g rag vs client request) as (r & _ & ->); try done.
    destruct r as [e|[context srcs]].
    + unfold log_of. cbn [fst invocations length]. split; [lia|].
      intros prompt Hin.
      apply elem_of_cons in Hin as [?|Hin]; [done|].
      apply elem_of_cons in Hin as [?|Hin]; [done|]. by apply elem_of_nil in Hin.
    + cbv zeta. destruct (llm_oracle client _);
        unfold log_of; cbn [fst invocations length]; (split; [lia|]);
        intros prompt Hin;
        apply elem_of_cons in Hin as [?|Hin]; try done;
        (apply elem_of_cons in Hin as [[= <-]|Hin]; [by eexists|]);
        exfalso; repeat (apply elem_of_cons in Hin as [?|Hin]; [done|]);
        by apply elem_of_nil in Hin.
  - rewrite (get_message_blank g rag vs client) by done.
    unfold log_of. cbn [fst invocations length]. split; [lia|].
    intros prompt Hin.
    apply elem_of_cons in Hin as [?|Hin]; [done|]. by apply elem_of_nil in Hin.
Qed.

(** X12. The reply of an initialised server when both oracles answer: the
    model's text under the role ["bot"], with the retrieved sources, or with
    no [sources] field when nothing was retrieved. *)
Theorem answered_request g rag vs client request context srcs response :
  rag_system g = Some rag -> vectorstore rag = Some vs -> llm g = Some client ->
  truthy (strip (req_content request)) = true ->
  outcome_of (retrieve_context rag (strip (req_content request)) 3 g)
  = inr (context, srcs) ->
  llm_oracle client (build_messages context request (strip (req_content request)))
  = inr response ->
  get_message request g =
  ([SimilaritySearch (strip (req_content request)) 3;
    Invoke (build_messages context request (strip (req_content request)))],
   g,
   inr {| resp_content := response; resp_role := "bot";
          sources := match srcs with [] => None | _ => Some srcs end |}).
Proof.
  intros Hrag Hvs Hllm Hmsg Hctx Hreply.
  destruct (get_message_run g rag vs client request) as (r & Hrun & ->); try done.
  rewrite Hrun in Hctx. unfold outcome_of in Hctx. cbn [snd] in Hctx. subst r.
  cbv zeta. by rewrite Hreply.
Qed.

(** X13. When retrieval or the model raises, an initialised server answers 500
    with that exception in the detail; the model is not called a second
    time, and not at all when retrieval failed. *)
Theorem upstream_failure_answers_500 g rag vs client request e :
  rag_system g = Some rag -> vectorstore rag = Some vs -> llm g = Some client ->
  truthy (strip (req_content request)) = true ->
  (outcome_of (retrieve_context rag (strip (req_content request)) 3 g) = inl e
   \/ exists context srcs,
        outcome_of (retrieve_context rag (strip (req_content request)) 3 g)
        = inr (context, srcs)
        /\ llm_oracle client
             (build_messages context request (strip (req_content request)))
           = inl e) ->
  outcome_of (get_message request g)
  = inl (HTTPException 500 [Lit "Error processing your message: "; StrOf e])
  /\ (outcome_of (retrieve_context rag (strip (req_content request)) 3 g) = inl e ->
      invocations (log_of (get_message request g)) = []).
Proof.
  intros Hrag Hvs Hllm Hmsg Hfail.
  destruct (get_message_run g rag vs client request) as (r & Hrun & ->); try done.
  rewrite Hrun in Hfail |- *. unfold outcome_of in *. cbn [snd] in *.
  destruct Hfail as [->|(context & srcs & -> & Hfail)].
  - done.
  - cbv zeta. rewrite Hfail. split; [done|]. by intros ?.
Qed.

Lemma retrieve_outcome_any_state {S S'} rag q k (s : S) (s' : S') :
  outcome_of (retrieve_context rag q k s) = outcome_of (retrieve_context rag q k s').
Proof.
  destruct (vectorstore rag) as [vs|] eqn:E.
  - by rewrite !(main_retrieve_set rag vs).
  - by rewrite !main_retrieve_unset.
Qed.

Lemma history_messages_window h :
  history_messages h = flat_map history_message (last_n 6 (default [] h)).
Proof. by destruct h as [[|m l]|]. Qed.

Lemma length_history_message msg : (length (history_message msg) <= 1)%nat.
Proof.
  unfold history_message.
  destruct (String.eqb _ _); [cbn; lia|]. destruct (String.eqb _ _); cbn; lia.
Qed.

Lemma length_history_messages h : (length (history_messages h) <= 6)%nat.
Proof.
  rewrite history_messages_window.
  assert (Hlast : (length (last_n 6 (default [] h)) <= 6)%nat).
  { unfold last_n. rewrite length_drop. lia. }
  revert Hlast. generalize (last_n 6 (default [] h)) as l. generalize 6%nat as n.
  intros n l. revert n. induction l as [|m l IH]; intros n Hn; [cbn; lia|].
  cbn [flat_map length] in *. rewrite length_app.
  pose proof (length_history_message m). specialize (IH (n - 1)%nat). lia.
Qed.

(** X14. Every prompt the handler sends starts with the system instruction, ends
    with the trimmed message of the request and holds at most six history
    messages between them, however long the history in the request is. *)
Theorem server_prompt_is_windowed g request prompt :
  prompt ∈ invocations (log_of (get_message request g)) ->
  windowed prompt (strip (req_content request)).
Proof.
  assert (Hwin : forall context,
            windowed (build_messages context request (strip (req_content request)))
                     (strip (req_content request))).
  { intros context. exists (system_prompt context),
      (history_messages (conversation_history request)).
    split; [done | apply length_history_messages]. }
  destruct (rag_system g) as [rag|] eqn:Hrag;
    [|rewrite get_message_no_index; [by intros ?%elem_of_nil | by left]].
  destruct (vectorstore rag) as [vs|] eqn:Hvs;
    [|rewrite get_message_no_index;
      [by intros ?%elem_of_nil | right; by exists rag]].
  destruct (llm g) as [client|] eqn:Hllm;
    [|rewrite (get_message_no_llm g rag vs) by done; by intros ?%elem_of_nil].
  destruct (truthy (strip (req_content request))) eqn:Hmsg.
  - destruct (get_message_run g rag vs client request) as (r & _ & ->); try done.
    destruct r as [e|[context srcs]]; [by intros ?%elem_of_nil|].
    cbv zeta. destruct (llm_oracle client _);
      unfold log_of; cbn [fst invocations];
      intros ->%list_elem_of_singleton; apply Hwin.
  - rewrite (get_message_blank g rag vs client) by done. by intros ?%elem_of_nil.
Qed.

Lemma process_ext g rag client request request' :
  strip (req_content request) = strip (req_content request') ->
  history_messages (conversation_history request)
  = history_messages (conversation_history request') ->
  process rag client request g = process rag client request' g.
Proof.
  intros Hc Hh.
  destruct (truthy (strip (req_content request))) eqn:Hmsg.
  - destruct (process_run g rag client request Hmsg) as (l & r & Hrun & _ & ->).
    rewrite Hc in Hmsg.
    destruct (process_run g rag client request' Hmsg) as (l' & r' & Hrun' & _ & ->).
    rewrite Hc, Hrun' in Hrun. injection Hrun as <- <-.
    destruct r' as [e|[context srcs]]; [done|].
    unfold build_messages. by rewrite Hc, Hh.
  - rewrite process_blank by done. rewrite Hc in Hmsg. by rewrite process_blank.
Qed.

(** X15. The answer depends on the request only through its trimmed content and
    its last six history entries: the [role] field, white space around the
    content and older history entries change nothing, and a missing history
    is an empty one. *)
Theorem answer_depends_on_content_and_last_six g request request' :
  strip (req_content request) = strip (req_content request') ->
  last_n 6 (default [] (conversation_history request))
  = last_n 6 (default [] (conversation_history request')) ->
  get_message request g = get_message request' g.
Proof.
  intros Hc Hh.
  assert (Hhist : history_messages (conversation_history request)
                  = history_messages (conversation_history request'))
    by (by rewrite !history_messages_window, Hh).
  destruct (rag_system g) as [rag|] eqn:Hrag;
    [|rewrite !get_message_no_index; [done | by left | by left]].
  destruct (vectorstore rag) as [vs|] eqn:Hvs;
    [|rewrite !get_message_no_index;
      [done | right; by exists rag | right; by exists rag]].
  destruct (llm g) as [client|] eqn:Hllm;
    [|by rewrite !(get_message_no_llm g rag vs)].
  rewrite !(get_message_ready g rag vs client) by done.
  unfold try_except. by rewrite (process_ext g rag client request request').
Qed.

(** X16. [POST /reset] empties the session store and nothing else, and no answer
    of [POST /getMsg] changes by it: the chat handler does not read the
    store. *)
Theorem reset_changes_no_answer g request :
  let g' := state_of (reset_conversation g) in
  conversation_histories g' = ∅
  /\ rag_system g' = rag_system g /\ llm g' = llm g
  /\ log_of (get_message request g') = log_of (get_message request g)
  /\ outcome_of (get_message request g') = outcome_of (get_message request g).
Proof.
  intros g'. split; [done|]. split; [done|]. split; [done|].
  assert (Hr : rag_system g' = rag_system g) by done.
  assert (Hl : llm g' = llm g) by done.
  clearbody g'.
  destruct (rag_system g) as [rag|] eqn:Hrag;
    [|rewrite !get_message_no_index; [done | by left | by left]].
  destruct (vectorstore rag) as [vs|] eqn:Hvs;
    [|rewrite !get_message_no_index;
      [done | right; by exists rag | right; by exists rag]].
  destruct (llm g) as [client|] eqn:Hllm;
    [|by rewrite (get_message_no_llm g rag vs), (get_message_no_llm g' rag vs)].
  destruct (truthy (strip (req_content request))) eqn:Hmsg.
  - destruct (get_message_run g rag vs client request) as (r & Hrun & ->); try done.
    destruct (get_message_run g' rag vs client request) as (r' & Hrun' & ->);
      try done.
    pose proof (retrieve_outcome_any_state rag (strip (req_content request)) 3 g g')
      as Hsame.
    rewrite Hrun, Hrun' in Hsame. unfold outcome_of in Hsame. cbn [snd] in Hsame.
    subst r'. destruct r as [e|[context srcs]]; [done|].
    cbv zeta. by destruct (llm_oracle client _).
  - by rewrite (get_message_blank g rag vs client), (get_message_blank g' rag vs client).
Qed.

Lemma ready_is_never_503 g rag vs client request :
  rag_system g = Some rag -> vectorstore rag = Some vs -> llm g = Some client ->
  status_of (outcome_of (get_message request g)) <> 503%Z.
Proof.
  intros Hrag Hvs Hllm.
  destruct (truthy (strip (req_content request))) eqn:Hmsg.
  - destruct (get_message_run g rag vs client request) as (r & _ & ->); try done.
    destruct r as [e|[context srcs]]; [done|].
    cbv zeta. by destruct (llm_oracle client _).
  - by rewrite (get_message_blank g rag vs client).
Qed.

(** X17. [POST /getMsg] answers 503 exactly when [GET /] reports no loaded index
    or [GET /health] reports no model client; [GET /] reports a loaded index
    exactly when [GET /health] reports both the RAG system and its vector
    store. *)
Theorem unavailable_iff_health_says_so g request :
  (status_of (outcome_of (get_message request g)) = 503%Z
   <-> rag_loaded (root g) = false \/ llm_initialized (health_check g) = false)
  /\ rag_loaded (root g)
     = rag_initialized (health_check g) && vectorstore_loaded (health_check g).
Proof.
  split.
  - unfold root, health_check. cbn [rag_loaded llm_initialized].
    destruct (rag_system g) as [rag|] eqn:Hrag;
      [|rewrite get_message_no_index; [split; [by left | done] | by left]].
    destruct (vectorstore rag) as [vs|] eqn:Hvs;
      [|rewrite get_message_no_index;
        [split; [by left | done] | right; by exists rag]].
    destruct (llm g) as [client|] eqn:Hllm;
      [|rewrite (get_message_no_llm g rag vs) by done; split; [by right | done]].
    split; [|by intros [?|?]].
    intros H503. by destruct (ready_is_never_503 g rag vs client request).
  - unfold root, health_check. cbn [rag_loaded rag_initialized vectorstore_loaded].
    by destruct (rag_system g).
Qed.

(** ** Start-up *)

(** X18. With the API key set, both constructors returning and no index on
    disk, start-up succeeds without a vector store; [GET /] then reports
    [rag_loaded = false] and every [POST /getMsg] is answered 503 without a
    call to any oracle. *)
Theorem startup_without_index (env : Environment Vec) g client emb request :
  env_truthy (GROQ_API_KEY env) = true ->
  new_llm env = inr client ->
  new_embeddings env = inr emb ->
  index_exists env = false ->
  let g' := (startup_event env g).1 in
  (startup_event env g).2 = None
  /\ llm g' = Some client
  /\ rag_loaded (root g') = false
  /\ get_message request g' = ([], g', inl rag_not_initialized).
Proof.
  intros Hkey Hllm Hemb Hidx.
  unfold startup_event, new_rag, load_existing_vectorstore.
  rewrite Hkey, Hllm, Hemb, Hidx. cbn [negb fst snd].
  split; [done|]. split; [done|]. split; [done|].
  apply get_message_no_index. right. by eexists.
Qed.

(** X19. With the API key set, both constructors returning and an index that
    loads, start-up succeeds with that index; [GET /] reports it and no
    [POST /getMsg] is answered 503. *)
Theorem startup_with_index (env : Environment Vec) g client emb vs request :
  env_truthy (GROQ_API_KEY env) = true ->
  new_llm env = inr client ->
  new_embeddings env = inr emb ->
  index_exists env = true ->
  load_local env emb = inr vs ->
  let g' := (startup_event env g).1 in
  (startup_event env g).2 = None
  /\ rag_loaded (root g') = true
  /\ status_of (outcome_of (get_message request g')) <> 503%Z.
Proof.
  intros Hkey Hllm Hemb Hidx Hload.
  unfold startup_event, new_rag, load_existing_vectorstore.
  rewrite Hkey, Hllm, Hemb, Hidx. cbn [negb embeddings]. rewrite Hload.
  cbn [fst snd]. split; [done|]. split; [done|].
  by eapply ready_is_never_503.
Qed.

(** X20. Start-up completes without raising exactly when the API key is set
    and not empty, the model client and the embeddings are constructed
    without an exception, and loading the index succeeds, is skipped because
    the path is missing, or raises [FileNotFoundError]; a constructor that
    raises, or any other exception while loading, aborts start-up. *)
Theorem startup_raises_iff (env : Environment Vec) g :
  (startup_event env g).2 = None
  <-> env_truthy (GROQ_API_KEY env) = true
      /\ (exists client, new_llm env = inr client)
      /\ (exists emb,
            new_embeddings env = inr emb
            /\ (index_exists env = false
                \/ (exists vs, load_local env emb = inr vs)
                \/ (exists msg,
                      load_local env emb = inl (FileNotFoundError msg)))).
Proof.
  unfold startup_event, new_rag, load_existing_vectorstore.
  destruct (env_truthy (GROQ_API_KEY env)); cbn [negb snd];
    [|split; [done | by intros [? _]]].
  destruct (new_llm env) as [e|client]; cbn [snd];
    [split; [done | by intros (_ & [? ?] & _)]|].
  destruct (new_embeddings env) as [e|emb]; cbn [snd];
    [split; [done | by intros (_ & _ & ? & ? & _)]|].
  destruct (index_exists env); cbn [negb embeddings].
  - destruct (load_local env emb) as [[msg|msg|e]|vs] eqn:Hload; cbn [snd].
    + split; [done|].
      intros (_ & _ & emb' & [= <-] & [?|[[? ?]|[? ?]]]); congruence.
    + split; [|done]. intros _. split; [done|]. split; [by eexists|].
      exists emb. split; [done|]. right. right. by eexists.
    + split; [done|].
      intros (_ & _ & emb' & [= <-] & [?|[[? ?]|[? ?]]]); congruence.
    + split; [|done]. intros _. split; [done|]. split; [by eexists|].
      exists emb. split; [done|]. right. left. by eexists.
  - cbn [snd]. split; [|done]. intros _. split; [done|]. split; [by eexists|].
    exists emb. split; [done | by left].
Qed.

(** When the embeddings constructor raises, start-up is left with that
    exception: the model client is assigned, the RAG system is not, and
    whether an index is on disk plays no part. *)
Lemma startup_without_embeddings (env : Environment Vec) g client e :
  env_truthy (GROQ_API_KEY env) = true ->
  new_llm env = inr client ->
  new_embeddings env = inl e ->
  startup_event env g
  = ({| rag_system := rag_system g; llm := Some client;
        conversation_histories := conversation_histories g |}, Some e).
Proof.
  intros Hkey Hllm Hemb. unfold startup_event, new_rag.
  by rewrite Hkey, Hllm, Hemb.
Qed.

End Handler.
End ServerFacts.

(** * More on the console session *)
Module ConsoleFacts.
Import Py PyFacts Schema Eff Eff.Notations LangChain Chatbot PromptSpec HistorySpec.
Import RetrievalProofs ServerProofs ConsoleProofs.

Lemma exchanges_snoc h user reply :
  exchanges h -> exchanges (h ++ [HumanMessage user; AIMessage reply]).
Proof.
  induction 1 as [|u a h _ IH]; cbn [app].
  - by repeat constructor.
  - by constructor.
Qed.

Lemma console_prompt_windowed context h user_input :
  windowed (build_messages context h user_input) user_input.
Proof.
  exists (system_prompt context), (last_n 6 h). split; [done|].
  unfold last_n. rewrite length_drop. lia.
Qed.

Section Console.
Context {Vec : Type}.
Implicit Types (rag : RAGSystem Vec) (llm : ChatGroq) (h : list message).

Lemma turn_quit llm rag line h :
  is_quit line = true ->
  turn llm rag line h
  = ([Print [Lit "Chatbot: Goodbye! Have a great day!"]], h, inr false).
Proof. unfold is_quit, turn. by intros ->. Qed.

(** What one pass of the loop can do, whatever the line and the oracles. *)
Lemma turn_cases llm rag line h :
  exists l h',
    turn llm rag line h = (l, h', inr (negb (is_quit line)))
    /\ (h' = h
        \/ exists reply,
             h' = h ++ [HumanMessage (strip line); AIMessage reply])
    /\ (length (invocations l) <= 1)%nat
    /\ (forall prompt, prompt ∈ invocations l -> windowed prompt (strip line)).
Proof.
  destruct (is_quit line) eqn:Hquit.
  - rewrite turn_quit by done. eexists _, _. split; [done|]. split; [by left|].
    split; [cbn; lia | by intros ? ?%elem_of_nil].
  - destruct (truthy (strip line)) eqn:Hmsg.
    + destruct (turn_run llm rag line h Hquit Hmsg) as (l & r & _ & Hinv & ->).
      destruct r as [e|context].
      * eexists _, _. split; [done|]. split; [by left|].
        rewrite invocations_app, Hinv.
        split; [cbn; lia | by intros ? ?%elem_of_nil].
      * cbv zeta. destruct (llm_oracle llm _) as [e|reply];
          eexists _, _; (split; [done|]);
          (split; [first [by left | right; by eexists]|]);
          rewrite invocations_app, Hinv; cbn [app invocations length];
          (split; [lia|]); intros prompt ->%list_elem_of_singleton;
          apply console_prompt_windowed.
    + rewrite turn_blank by done. eexists _, _. split; [done|]. split; [by left|].
      split; [cbn; lia | by intros ? ?%elem_of_nil].
Qed.

Lemma chat_loop_cons llm rag line rest h l h' (continue : bool) :
  turn llm rag line h = (l, h', inr continue) ->
  chat_loop llm rag (line :: rest) h =
  if continue
  then let '(l', s, r) := chat_loop llm rag rest h' in (l ++ l', s, r)
  else (l ++ [], h', inr tt).
Proof.
  intros Hturn. cbn [chat_loop]. unfold bind at 1. rewrite Hturn.
  by destruct continue.
Qed.

(** X21. A quit word, in any letter case and with white space around it, ends
    the session: the farewell is printed, no oracle is called, the history
    stays and the lines after it are not read. *)
Theorem quit_word_ends_session llm rag line rest h :
  is_quit line = true ->
  chat_loop llm rag (line :: rest) h
  = ([Print [Lit "Chatbot: Goodbye! Have a great day!"]], h, inr tt).
Proof.
  intros Hquit.
  by rewrite (chat_loop_cons llm rag line rest h _ _ _ (turn_quit llm rag line h Hquit)).
Qed.

(** X22. A turn in which both oracles answer appends the trimmed user message
    and the reply to the history, in this order, and prints the reply. *)
Theorem answered_turn_appends_exchange llm rag line h context reply :
  is_quit line = false ->
  truthy (strip line) = true ->
  outcome_of (retrieve_context rag (strip line) 3 h) = inr context ->
  llm_oracle llm (build_messages context h (strip line)) = inr reply ->
  state_of (turn llm rag line h)
  = h ++ [HumanMessage (strip line); AIMessage reply]
  /\ outcome_of (turn llm rag line h) = inr true
  /\ invocations (log_of (turn llm rag line h))
     = [build_messages context h (strip line)]
  /\ Print [Lit ("Chatbot: " +:+ reply +:+ nl)] ∈ log_of (turn llm rag line h).
Proof.
  intros Hquit Hmsg Hctx Hreply.
  destruct (turn_run llm rag line h Hquit Hmsg) as (l & r & Hrun & Hinv & ->).
  rewrite Hrun in Hctx. unfold outcome_of in Hctx. cbn [snd] in Hctx. subst r.
  cbv zeta. rewrite Hreply. unfold state_of, outcome_of, log_of. cbn [fst snd].
  split; [done|]. split; [done|]. split.
  - by rewrite invocations_app, Hinv.
  - apply elem_of_app. right. apply list_elem_of_further, list_elem_of_here.
Qed.

(** X23. The session ends in one of two ways: with a quit word it returns, and
    without one it ends with the [EOFError] of [input] when the lines run
    out.  No failure of retrieval or of the model ends it. *)
Theorem session_ends_by_quit_or_eof llm rag stdin h :
  outcome_of (chat_loop llm rag stdin h)
  = if existsb is_quit stdin then inr tt else inl EOFError.
Proof.
  revert h. induction stdin as [|line rest IH]; intros h; [done|].
  destruct (turn_cases llm rag line h) as (l & h' & Hturn & _).
  rewrite (chat_loop_cons llm rag line rest h _ _ _ Hturn).
  cbn [existsb]. destruct (is_quit line); cbn [negb orb]; [done|].
  specialize (IH h'). by destruct (chat_loop llm rag rest h') as [[l' s] r].
Qed.

(** X24. Over a whole session the history only grows, by at most one exchange
    per line read, and a history made of exchanges stays one. *)
Theorem history_grows_by_exchanges llm rag stdin h :
  let h' := state_of (chat_loop llm rag stdin h) in
  h `prefix_of` h'
  /\ (length h' <= length h + 2 * length stdin)%nat
  /\ (exchanges h -> exchanges h').
Proof.
  cbv zeta. revert h. induction stdin as [|line rest IH]; intros h.
  - cbn. split; [done|]. split; [lia | done].
  - destruct (turn_cases llm rag line h) as (l & h1 & Hturn & Hh1 & _).
    rewrite (chat_loop_cons llm rag line rest h _ _ _ Hturn).
    assert (Hstep : h `prefix_of` h1
                    /\ (length h1 <= length h + 2)%nat
                    /\ (exchanges h -> exchanges h1)).
    { destruct Hh1 as [->|(reply & ->)].
      - split; [done|]. split; [lia | done].
      - split; [by apply prefix_app_r|]. rewrite length_app. cbn [length].
        split; [lia|]. apply exchanges_snoc. }
    destruct Hstep as (Hpre & Hlen & Hex).
    destruct (negb (is_quit line)).
    + specialize (IH h1).
      destruct (chat_loop llm rag rest h1) as [[l' s] r].
      unfold state_of in *. cbn [fst snd length] in *.
      destruct IH as (IHpre & IHlen & IHex).
      split; [by etrans|]. split; [lia | auto].
    + unfold state_of. cbn [fst snd length]. split; [done|]. split; [lia | done].
Qed.

(** X25. Every prompt of a session starts with the system instruction, ends with
    the trimmed text of one of the lines read and holds at most six history
    messages between them; there are no more prompts than lines. *)
Theorem console_prompts_are_windowed llm rag stdin h :
  (length (invocations (log_of (chat_loop llm rag stdin h))) <= length stdin)%nat
  /\ (forall prompt,
        prompt ∈ invocations (log_of (chat_loop llm rag stdin h)) ->
        exists line, line ∈ stdin /\ windowed prompt (strip line)).
Proof.
  revert h. induction stdin as [|line rest IH]; intros h.
  - cbn. split; [lia | by intros ? ?%elem_of_nil].
  - destruct (turn_cases llm rag line h) as (l & h1 & Hturn & _ & Hone & Hwin).
    rewrite (chat_loop_cons llm rag line rest h _ _ _ Hturn).
    destruct (negb (is_quit line)).
    + specialize (IH h1).
      destruct (chat_loop llm rag rest h1) as [[l' s] r].
      unfold log_of in *. cbn [fst snd length] in *.
      rewrite invocations_app, length_app. destruct IH as [IHlen IHwin].
      split; [lia|]. intros prompt [Hin|Hin]%elem_of_app.
      * exists line. split; [apply list_elem_of_here | by apply Hwin].
      * destruct (IHwin prompt Hin) as (line' & Hin' & Hw).
        exists line'. split; [by apply list_elem_of_further | done].
    + unfold log_of. cbn [fst snd length]. rewrite app_nil_r.
      split; [lia|]. intros prompt Hin.
      exists line. split; [apply list_elem_of_here | by apply Hwin].
Qed.

End Console.
End ConsoleFacts.

(** * The console program before its loop *)
Module StartupFacts.
Import Py Schema Eff Eff.Notations LangChain Chatbot ConsoleStartup.
Import ConsoleFacts.

Section Startup.
Context {Vec : Type}.
Implicit Types (env : Environment Vec) (rag : RAGSystem Vec).





(** X8. [process_and_store_documents] calls [FAISS.from_texts] with the
    chunks of all documents in document order, the object's embeddings and,
    aligned with the chunks one to one, a metadata dictionary per chunk whose
    only entry is the source of the chunk's document.  The store that call
    returns becomes the object's vector store before it is saved; when the
    call raises, the vector store stays as it was. *)
Theorem store_is_built_from_sourced_chunks env documents rag :
  let texts := CrawlResult.texts_of (split_text env) documents in
  let metadatas := CrawlResult.metadatas_of (split_text env) documents in
  let result := process_and_store_documents env documents rag in
  length texts = length metadatas
  /\ (forall text meta,
        (text, meta) ∈ zip texts metadatas ->
        exists doc,
          doc ∈ documents /\ text ∈ split_text env (content doc)
          /\ meta = {[ "source" := source doc ]})
  /\ match from_texts env texts (embeddings rag) metadatas with
     | inl e => state_of result = rag /\ outcome_of result = inl e
     | inr vs =>
         state_of result = set_vectorstore vs rag
         /\ outcome_of result
            = match save_local env vs with
              | inl e => inl e
              | inr _ => inr tt
              end
     end.
Proof.
  intros texts metadatas result.
  destruct (CrawlFacts.chunk_documents_flat (split_text env) documents)
    as [Hflat Hlen].
  split; [done|]. split.
  - intros text meta Hin.
    apply (ScraperProofs.chunk_documents_source (split_text env) documents).
    by rewrite Hflat.
  - unfold result, process_and_store_documents, bind, emit, get, lift, modify.
    rewrite Hflat. cbn [fst snd]. fold texts metadatas.
    destruct (from_texts env texts (embeddings rag) metadatas) as [e|vs]; [done|].
    by destruct (save_local env vs) as [e|[]].
Qed.


(** X27. When the crawl returns no document, on a first run or after the answer
    [y], the program ends before the loop: it returns normally, with an empty
    history and without a call to retrieval or to the model, whatever input
    follows. *)
Theorem no_documents_no_chat env stdin :
  scraped env = [] ->
  (index_exists env = false
   \/ exists line rest, stdin = line :: rest /\ lower (strip line) = "y") ->
  let session := chatbot_with_rag env stdin in
  outcome_of session = inr tt
  /\ state_of session = []
  /\ Forall (fun ev => is_oracle_call ev = false) (log_of session)
  /\ Print [Lit "No documents scraped. Exiting..."] ∈ log_of session.
Proof.
  intros Hdocs Hbranch. cbv zeta. unfold chatbot_with_rag.
  set (rag0 := {| embeddings := new_embeddings env; vectorstore := None |}).
  assert (Hprep : exists l,
            prepare env stdin rag0 = (l, rag0, inr None)
            /\ Forall (fun ev => is_oracle_call ev = false) l
            /\ Print [Lit "No documents scraped. Exiting..."] ∈ l).
  { unfold prepare, scrape_and_store. rewrite Hdocs.
    destruct Hbranch as [->|(line & rest & -> & Hy)].
    - eexists. split; [reflexivity|]. split; [by repeat constructor|].
      cbn [app]. by repeat constructor.
    - destruct (index_exists env).
      + rewrite Hy. eexists. split; [reflexivity|].
        split; [by repeat constructor|]. cbn [app]. by repeat constructor.
      + eexists. split; [reflexivity|]. split; [by repeat constructor|].
        cbn [app]. by repeat constructor. }
  destruct Hprep as (l & -> & Hl & Hin).
  unfold outcome_of, state_of, log_of. cbn [fst snd].
  split; [done|]. split; [done|]. split.
  - apply Forall_app. split; [by repeat constructor | done].
  - apply elem_of_app. by right.
Qed.

(** X28. When the index exists, the answer is not [y] and loading raises, the
    program prints the error and returns: no crawl result is used, no oracle
    is called and the loop is not entered. *)
Theorem failed_load_ends_quietly env line rest e :
  index_exists env = true ->
  String.eqb (lower (strip line)) "y" = false ->
  load_local env (new_embeddings env) = inl e ->
  let session := chatbot_with_rag env (line :: rest) in
  outcome_of session = inr tt
  /\ state_of session = []
  /\ Forall (fun ev => is_oracle_call ev = false) (log_of session)
  /\ Print [Lit "Error loading vectorstore: "; StrOf e] ∈ log_of session.
Proof.
  intros Hidx Hchoice Hload. cbv zeta.
  unfold chatbot_with_rag, prepare, load_existing_vectorstore.
  rewrite Hidx, Hchoice. cbn [negb].
  unfold try_except, bind, emit, get, lift. cbn [embeddings]. rewrite Hload.
  unfold outcome_of, state_of, log_of. cbn [fst snd app].
  split; [done|]. split; [done|]. split; [by repeat constructor|].
  unfold banner. cbn [app].
  do 7 apply list_elem_of_further. apply list_elem_of_here.
Qed.

End Startup.
End StartupFacts.

(** * The further properties on the examples *)
Module FurtherExamples.
Import Py Schema Eff LangChain PromptSpec HistorySpec.
Import ExampleSite ExampleServer ExampleStartup.
Import CrawlFacts ServerFacts ConsoleFacts StartupFacts.

Example crawl_queue :
  Chatbot.to_visit (crawl 2 1) = [seed +:+ "/services"; seed +:+ "/services"].
Proof. vm_compute. reflexivity. Qed.

Example crawl_fetched_all :
  Chatbot.fetched (crawl 2 5) = [seed; seed +:+ "/services"].
Proof. vm_compute. reflexivity. Qed.

Lemma fetches_are_the_visited_set_witness :
  (0 <= 2)%Z
  /\ (Z.of_nat (length (Chatbot.fetched (crawl 2 5))) <= 2)%Z.
Proof.
  split; [lia|].
  apply (fetches_are_the_visited_set requests_get urljoin netloc seed 2 5).
  lia.
Defined.

Lemma queue_stays_in_domain_witness :
  netloc (seed +:+ "/services") = netloc seed.
Proof.
  apply (queue_stays_in_domain requests_get urljoin netloc seed 2 1).
  change (seed +:+ "/services" ∈ Chatbot.to_visit (crawl 2 1)).
  rewrite crawl_queue. apply list_elem_of_here.
Defined.

Lemma fetched_pages_are_linked_from_earlier_witness :
  seed +:+ "/services" = seed
  \/ exists page,
       page ∈ take 1 (Chatbot.fetched (crawl 2 5))
       /\ seed +:+ "/services" ∈ CrawlResult.links_on requests_get urljoin page.
Proof.
  apply (fetched_pages_are_linked_from_earlier requests_get urljoin netloc
           seed 2 5 1 (seed +:+ "/services")).
  change (Chatbot.fetched (crawl 2 5) !! 1%nat = Some (seed +:+ "/services")).
  by rewrite crawl_fetched_all.
Defined.

Lemma nonpositive_cap_fetches_nothing_witness :
  (0 <= 0)%Z
  /\ Chatbot.scrape_website requests_get urljoin netloc 3
       (Chatbot.init netloc seed 0) = Some [].
Proof.
  split; [lia|].
  apply (nonpositive_cap_fetches_nothing requests_get urljoin netloc seed 0 3).
  lia.
Defined.

Lemma answered_request_witness :
  outcome_of (Main.get_message (ask ten_turns) ready)
  = inr {| Main.resp_content := "We offer consulting."; Main.resp_role := "bot";
           Main.sources := Some ["https://example.com/contact";
                                 "https://example.com/services"] |}.
Proof.
  rewrite (answered_request ready rag store groq (ask ten_turns)
             (retrieved "What do you offer?").1
             (retrieved "What do you offer?").2
             "We offer consulting.");
    vm_compute; reflexivity.
Defined.

Lemma upstream_failure_answers_500_witness :
  outcome_of (Main.get_message (ask ten_turns) degraded)
  = inl (HTTPException 500
           [Lit "Error processing your message: ";
            StrOf (Exception "rate limit exceeded")]).
Proof.
  apply (upstream_failure_answers_500 degraded rag store groq_down (ask ten_turns)
           (Exception "rate limit exceeded")); try reflexivity.
  right. exists (retrieved "What do you offer?").1, (retrieved "What do you offer?").2.
  split; vm_compute; reflexivity.
Defined.

Lemma server_prompt_is_windowed_witness :
  windowed
    (Main.build_messages (retrieved "What do you offer?").1 (ask ten_turns)
       "What do you offer?")
    "What do you offer?".
Proof.
  apply (server_prompt_is_windowed ready (ask ten_turns)).
  vm_compute. apply list_elem_of_here.
Defined.

Lemma answer_depends_on_content_and_last_six_witness :
  Main.get_message (ask ten_turns) ready = Main.get_message ask_again ready.
Proof.
  apply (answer_depends_on_content_and_last_six ready (ask ten_turns) ask_again);
    vm_compute; reflexivity.
Defined.

Example startup_without_embedding_model :
  (MainLifecycle.startup_event server_env_no_model MainLifecycle.initial_globals).2
  = Some (MainLifecycle.LibraryError (Exception "model download failed")).
Proof. reflexivity. Qed.

Lemma console_and_server_retrieve_alike_witness :
  outcome_of (Main.retrieve_context rag "What do you offer?" 3 tt)
  = inr (join (nl +:+ nl)
           (sections
              [(chunk "Contact us by mail." "https://example.com/contact").2;
               (chunk "We offer consulting." "https://example.com/services").2]),
         ["https://example.com/contact"; "https://example.com/services"]).
Proof.
  apply (proj2 (proj2
    (RetrievalFacts.console_and_server_retrieve_alike (S:=unit) embed embed
       (Some store) "What do you offer?" 3 tt)) store
    [(chunk "Contact us by mail." "https://example.com/contact").2;
     (chunk "We offer consulting." "https://example.com/services").2]);
    vm_compute; reflexivity.
Defined.

Lemma startup_without_index_witness :
  MainLifecycle.rag_loaded
    (MainLifecycle.root
       (MainLifecycle.startup_event server_env_no_index
          MainLifecycle.initial_globals).1) = false
  /\ Main.status_of
       (outcome_of
          (Main.get_message (ask ten_turns)
             (MainLifecycle.startup_event server_env_no_index
                MainLifecycle.initial_globals).1)) = 503%Z.
Proof.
  destruct (startup_without_index server_env_no_index
              MainLifecycle.initial_globals groq embed (ask ten_turns)
              eq_refl eq_refl eq_refl eq_refl)
    as (_ & _ & Hroot & Hmsg).
  split; [exact Hroot|]. by rewrite Hmsg.
Defined.

Lemma startup_with_index_witness :
  MainLifecycle.rag_loaded
    (MainLifecycle.root
       (MainLifecycle.startup_event server_env MainLifecycle.initial_globals).1)
  = true.
Proof.
  exact (proj1 (proj2
    (startup_with_index server_env MainLifecycle.initial_globals groq embed store
       (ask ten_turns) eq_refl eq_refl eq_refl eq_refl eq_refl))).
Defined.

Lemma quit_word_ends_session_witness :
  Chatbot.chat_loop groq console_rag [" QUIT  "; "What do you offer?"]
    console_history
  = ([Print [Lit "Chatbot: Goodbye! Have a great day!"]], console_history, inr tt).
Proof.
  apply (quit_word_ends_session groq console_rag " QUIT  " ["What do you offer?"]
           console_history).
  reflexivity.
Defined.

Lemma answered_turn_appends_exchange_witness :
  state_of (Chatbot.turn groq console_rag " hi there " console_history)
  = console_history ++ [HumanMessage "hi there"; AIMessage "We offer consulting."].
Proof.
  apply (answered_turn_appends_exchange groq console_rag " hi there "
           console_history (console_retrieved "hi there") "We offer consulting.");
    vm_compute; reflexivity.
Defined.


Lemma no_documents_no_chat_witness :
  outcome_of (ConsoleStartup.chatbot_with_rag console_env_empty_site ["hello"])
  = inr tt.
Proof.
  apply (no_documents_no_chat console_env_empty_site ["hello"]).
  - reflexivity.
  - by left.
Defined.

Lemma failed_load_ends_quietly_witness :
  outcome_of (ConsoleStartup.chatbot_with_rag console_env_corrupt ["n"; "hello"])
  = inr tt.
Proof.
  apply (failed_load_ends_quietly console_env_corrupt "n" ["hello"]
           (Exception "corrupt index")); reflexivity.
Defined.

End FurtherExamples.
